(** * The gRPC Node surface layer: client drivers, credentials algebra and
      the interop test service.

    A shallow embedding of
    - [src/node/src/client.js]: the streams' [_write], [getCall], the four
      request drivers and the client factory, with the native [Channel::New]
      that the client constructor calls;
    - the credentials module: [combineChannelCredentials] and
      [combineCallCredentials];
    - the interop test server: [echoHeader], [getEchoTrailer] and the six
      handlers;
    together with the parts that these call and that are not among the
    sources ([Metadata], the composition operators of the credentials
    algebra, [grpc.Call], [grpc.status]), modelled from the specification.
    The [compose] methods of the native credential objects are parameters of
    the two combinators. *)

From Stdlib Require Import ZArith NArith List String Ascii Lia.
From Stdlib.Strings Require Import Byte.
From stdpp Require Import base option list gmap strings.

Import ListNotations.
Local Open Scope string_scope.
Local Open Scope list_scope.

(** ** JavaScript control flow: a function either returns or throws. *)

Inductive Result (E A : Type) : Type :=
| Ok (a : A)
| Err (e : E).
Arguments Ok {E A} a.
Arguments Err {E A} e.

Definition bindR {E A B} (r : Result E A) (f : A -> Result E B) : Result E B :=
  match r with
  | Ok a => f a
  | Err e => Err e
  end.

Notation "'let*' x ':=' c1 'in' c2" := (bindR c1 (fun x => c2))
  (at level 10, x name, c1 at level 100, c2 at level 200).

(** ** Status codes *)

(** Modelled from the spec: [grpc.status] is exported by the native binding;
    the spec fixes an enumeration that contains OK, CANCELLED,
    DEADLINE_EXCEEDED and INTERNAL plus the standard RPC status set. *)
Inductive StatusCode : Type :=
| OK | CANCELLED | UNKNOWN | INVALID_ARGUMENT | DEADLINE_EXCEEDED | NOT_FOUND
| ALREADY_EXISTS | PERMISSION_DENIED | RESOURCE_EXHAUSTED | FAILED_PRECONDITION
| ABORTED | OUT_OF_RANGE | UNIMPLEMENTED | INTERNAL | UNAVAILABLE | DATA_LOSS
| UNAUTHENTICATED.

#[global] Instance StatusCode_eq_dec : EqDecision StatusCode.
Proof. solve_decision. Defined.

(** [status.code === grpc.status.OK] *)
Definition is_OK (c : StatusCode) : bool := bool_decide (c = OK).

(** ** Metadata *)

Module Metadata.

(** A value is text, or opaque bytes under a key that ends in [-bin]. *)
Inductive Value : Type :=
| Text (s : string)
| Binary (b : list byte).

Definition lower_ascii (c : ascii) : ascii :=
  let n := nat_of_ascii c in
  if (65 <=? n)%nat && (n <=? 90)%nat then ascii_of_nat (n + 32) else c.

Fixpoint lower (s : string) : string :=
  match s with
  | EmptyString => EmptyString
  | String c s' => String (lower_ascii c) (lower s')
  end.

(** Modelled from the spec: [metadata.js] is not part of the sources.
    Metadata is a collection of (key, value) entries; keys are
    case-insensitive for equality but preserved on emit; lookup by key
    returns all values in insertion order. *)
Definition t : Type := list (string * Value).

Definition key_eqb (a b : string) : bool := String.eqb (lower a) (lower b).

(** [new Metadata()] *)
Definition empty : t := [].

(** Modelled from the spec: [get(key)] returns the ordered list of values
    (empty if absent). *)
Definition get (m : t) (key : string) : list Value :=
  List.map snd (List.filter (fun e => key_eqb (fst e) key) m).

(** Modelled from the spec: [set(key, value)] replaces all values under
    [key]. *)
Definition set (m : t) (key : string) (v : Value) : t :=
  List.filter (fun e => negb (key_eqb (fst e) key)) m ++ [(key, v)].

(** Modelled from the spec: [add(key, value)] appends. *)
Definition add (m : t) (key : string) (v : Value) : t := m ++ [(key, v)].

(** Modelled from the spec: conversion to and from the transport's
    representation is a pure conversion of the entry list. *)
Definition CoreRepresentation : Type := list (string * Value).
Definition _getCoreRepresentation (m : t) : CoreRepresentation := m.
Definition _fromCoreRepresentation (c : CoreRepresentation) : t := c.

End Metadata.

(** ** JavaScript errors *)

Module JsError.

(** An error object: its class [name] and [message], and the properties
    [code] and [metadata] that the drivers set on it ([None]: not set). *)
Record t : Type := mk {
  name : string;
  message : string;
  code : option StatusCode;
  metadata : option Metadata.t
}.

(** [new Error(message)] *)
Definition Error (message : string) : t := mk "Error" message None None.

(** A [TypeError] raised by the runtime or by the native binding. *)
Definition TypeError (message : string) : t := mk "TypeError" message None None.

End JsError.

(** A JavaScript computation returns a value or throws an error. *)
Abbreviation Js := (Result JsError.t).

Definition Buffer : Type := list byte.

(** ** Credentials *)

Module Credentials.

(** A call credential carries a metadata-producing function of the
    authority URI; two call credentials compose into one. *)
Inductive CallCredentials : Type :=
| FromMetadataGenerator (generator : string -> Metadata.t)
| ComposedCall (k1 k2 : CallCredentials).

(** A channel credential is the insecure sentinel, an SSL credential, a test
    double with a chosen composability flag ([FakeChannelCredentials] of
    [ChannelCredentialsTest]), or a composite of a channel credential with a
    call credential. *)
Inductive ChannelCredentials : Type :=
| Insecure
| Ssl (root_certs : list byte) (key_cert : option (list byte * list byte))
| Fake (composable : bool)
| Composite (c : ChannelCredentials) (k : CallCredentials).

(** Modelled from the spec: the [isComposable] flag is true for secure
    variants and false for the insecure sentinel; a composite is itself
    non-composable. *)
Definition isComposable (c : ChannelCredentials) : bool :=
  match c with
  | Insecure => false
  | Ssl _ _ => true
  | Fake composable => composable
  | Composite _ _ => false
  end.

Inductive CredentialError : Type :=
| InvalidArgument.

(** Modelled from the spec: [composeCall : K x K -> K]; the native
    [CallCredentials.compose] is not part of the sources. *)
Definition composeCall (k1 k2 : CallCredentials) : CallCredentials :=
  ComposedCall k1 k2.

(** Modelled from the spec: [composeChannel : C x K -> C]; the native
    [ChannelCredentials.compose] and the C# [ChannelCredentials.Create] are
    not part of the sources, only the test of the latter is.  Either argument
    absent is an invalid-argument error (rule 2), the channel credential must
    be composable (rule 1), and the result is a composite. *)
Definition composeChannel (c : option ChannelCredentials)
    (k : option CallCredentials) : Result CredentialError ChannelCredentials :=
  match c, k with
  | Some c, Some k =>
      if isComposable c then Ok (Composite c k) else Err InvalidArgument
  | _, _ => Err InvalidArgument
  end.

(** The method call [current.compose(arguments[i])] on a channel credential.
    The native method is not part of the sources; this is what the
    credentials module documents of it: a channel credential is composed
    with a call credential into a channel credential ("ChannelCredentials
    can be composed with CallCredentials to create ChannelCredentials"), any
    number of times ("Combine a ChannelCredentials with any number of
    CallCredentials into a single ChannelCredentials object"), except for
    the insecure credential ("This cannot be composed with anything"). *)
Definition channel_compose (current : ChannelCredentials) (k : CallCredentials)
  : Result CredentialError ChannelCredentials :=
  match current with
  | Insecure => Err InvalidArgument
  | _ => Ok (Composite current k)
  end.

Section Combinators.

Context {Chan Call E : Type}.

(** The two [compose] methods of the native credential objects. *)
Variable compose_channel : Chan -> Call -> Result E Chan.
Variable compose_call : Call -> Call -> Call.

(** The loop [for (i = 1; i < arguments.length; i++)
               current = current.compose(arguments[i])]
    of [combineChannelCredentials]; a throwing [compose] leaves the loop. *)
Fixpoint combineChannelCredentials_loop (current : Chan) (rest : list Call)
  : Result E Chan :=
  match rest with
  | [] => Ok current
  | k :: rest' =>
      let* next := compose_channel current k in
      combineChannelCredentials_loop next rest'
  end.

(** [exports.combineChannelCredentials = function(channel_credential) {...}]:
    [credentials] are the arguments after the first. *)
Definition combineChannelCredentials (channel_credential : Chan)
    (credentials : list Call) : Result E Chan :=
  combineChannelCredentials_loop channel_credential credentials.

(** [exports.combineCallCredentials = function() {...}]: [current] starts as
    [arguments[0]], which is [undefined] ([None]) without arguments. *)
Definition combineCallCredentials (arguments : list Call) : option Call :=
  match arguments with
  | [] => None
  | first :: rest => Some (fold_left compose_call rest first)
  end.

End Combinators.

End Credentials.

(** ** The native channel ([Channel::New]) *)

Module Channel.

(** The JavaScript value of an options entry: an integer-valued number, a
    string, or anything else (a fraction, a boolean, an object, ...). *)
Inductive JsValue : Type :=
| JsNumber (n : Z)
| JsString (s : string)
| JsOther.

(** One [grpc_arg]: its [type] tag with the matching [value] member. *)
Inductive grpc_arg : Type :=
| GRPC_ARG_INTEGER (integer : Z)
| GRPC_ARG_STRING (str : string).

(** [current_value->IsInt32()] / [current_value->IsString()], and the
    [grpc_arg] the loop body fills in; [None] is the final [else]. *)
Definition to_arg (current_value : JsValue) : option grpc_arg :=
  match current_value with
  | JsNumber n =>
      if bool_decide (- 2 ^ 31 <= n < 2 ^ 31)%Z then Some (GRPC_ARG_INTEGER n)
      else None
  | JsString s => Some (GRPC_ARG_STRING s)
  | JsOther => None
  end.

(** What [new grpc.Channel(...)] wraps: the target, the credentials the
    channel was created with, and the channel arguments ([None] for
    [channel_args_ptr = NULL]). *)
Record t : Type := mk {
  target : string;
  credentials : Credentials.ChannelCredentials;
  args : option (gmap string grpc_arg)
}.

(** [creds_object->GetWrappedCredentials()] is [NULL] for the insecure
    credential, and the channel is then created insecure. *)
Definition secure (c : t) : bool :=
  match credentials c with
  | Credentials.Insecure => false
  | _ => true
  end.

(** [NAN_METHOD(Channel::New)], construct-call branch, for a string [host]
    and a [ChannelCredentials] instance: [options] is [info[2]], [None] when
    undefined.  An entry that is neither an int32 nor a string throws
    [TypeError("Arg values must be strings")]. *)
Definition New (host : string) (creds : Credentials.ChannelCredentials)
    (options : option (gmap string JsValue)) : Js t :=
  match options with
  | None => Ok (mk host creds None)
  | Some args_hash =>
      if bool_decide (map_Forall (fun _ v => is_Some (to_arg v)) args_hash)
      then Ok (mk host creds (Some (omap to_arg args_hash)))
      else Err (JsError.TypeError "Arg values must be strings")
  end.

End Channel.

(** ** The client surface ([client.js]) *)

Module Status.

(** The status object handed to the application: [code], [details] and the
    trailing metadata ([None]: the property is undefined). *)
Record t : Type := mk {
  code : StatusCode;
  details : string;
  metadata : option Metadata.t
}.

End Status.

Module Event.

(** [response.status] as the native binding delivers it, its metadata still
    in the core representation. *)
Record status_t : Type := mk_status {
  code : StatusCode;
  details : string;
  trailing : Metadata.CoreRepresentation
}.

(** The completion event of a batch: the received message ([read], [None]
    for [null]), the status and the initial metadata. *)
Record t : Type := mk {
  read : option Buffer;
  status : status_t;
  metadata : Metadata.CoreRepresentation
}.

End Event.

Module CallOptions.

Inductive Deadline : Type :=
| Infinity
| Timestamp (ms : Z)
| Date (ms : Z).

(** The per-call options map; [None] is an absent ([undefined]) entry.
    [parent] holds [options.parent.call] when [options.parent] is there. *)
Record t : Type := mk {
  deadline : option Deadline;
  host : option string;
  parent : option (option nat);
  propagate_flags : option Z;
  credentials : option Credentials.CallCredentials;
  flags : option Z
}.

End CallOptions.

Module Call.

(** Modelled from the spec: the native [grpc.Call] is not part of the
    sources.  A call handle has a target method, an absolute deadline (or
    +oo), an optional authority override, a parent-call pointer, and an
    optional per-call credential override. *)
Record t : Type := mk {
  channel : Channel.t;
  method : string;
  deadline : CallOptions.Deadline;
  host : option string;
  parent : option nat;
  propagate_flags : option Z;
  credentials : option Credentials.CallCredentials
}.

(** [call.setCredentials(credentials)] *)
Definition setCredentials (call : t) (c : Credentials.CallCredentials) : t :=
  mk (channel call) (method call) (deadline call) (host call) (parent call)
     (propagate_flags call) (Some c).

End Call.

Module Client.

(** A serialized message with its [grpcWriteFlags] property. *)
Record Message : Type := mkMessage {
  data : Buffer;
  grpcWriteFlags : option Z
}.

(** A batch object: one slot per operation type, [None]/[false] when the
    slot is not set.  A [SEND_MESSAGE] slot may hold [null] ([Some None]). *)
Record Batch : Type := mkBatch {
  SEND_INITIAL_METADATA : option Metadata.CoreRepresentation;
  SEND_MESSAGE : option (option Message);
  SEND_CLOSE_FROM_CLIENT : bool;
  RECV_INITIAL_METADATA : bool;
  RECV_MESSAGE : bool;
  RECV_STATUS_ON_CLIENT : bool
}.

(** What a completion handler does to the application, in order. *)
Inductive Effect (V : Type) : Type :=
| callback (err : option JsError.t) (value : option V)
| write_callback
| emit_status (status : Status.t)
| emit_metadata (metadata : Metadata.t)
| emit_error (err : JsError.t).
Arguments callback {V} err value.
Arguments write_callback {V}.
Arguments emit_status {V} status.
Arguments emit_metadata {V} metadata.
Arguments emit_error {V} err.

(** The function passed to [call.startBatch(batch, function(err, response))].
    A completion that carries only an error leaves [response] undefined
    ([None]); the function returns after its effects, or throws. *)
Definition Handler (V : Type) : Type :=
  option JsError.t -> option Event.t -> Js (list (Effect V)).

(** Reading a property of an [undefined] response. *)
Definition undefined_response (property : string) : JsError.t :=
  JsError.TypeError ("Cannot read property '" +:+ property +:+ "' of undefined").

(** [function getCall(channel, method, options)] *)
Definition getCall (channel : Channel.t) (method : string)
    (options : option CallOptions.t) : Call.t :=
  let deadline :=
    match options with Some o => CallOptions.deadline o | None => None end in
  let host :=
    match options with Some o => CallOptions.host o | None => None end in
  let parent :=
    match options with
    | Some o => match CallOptions.parent o with Some p => p | None => None end
    | None => None
    end in
  let propagate_flags :=
    match options with Some o => CallOptions.propagate_flags o | None => None end in
  let credentials :=
    match options with Some o => CallOptions.credentials o | None => None end in
  let deadline :=
    match deadline with
    | None => CallOptions.Infinity
    | Some d => d
    end in
  let call := Call.mk channel method deadline host parent propagate_flags None in
  match credentials with
  | Some c => Call.setCredentials call c
  | None => call
  end.

(** The [encoding] argument of [_write]: [_.isFinite(encoding)] holds for a
    finite number only. *)
Inductive Encoding : Type :=
| FiniteNumber (n : Z)
| OtherEncoding.

(** [function _write(chunk, encoding, callback)] of the writable and duplex
    streams.  [self_serialize] is [this.serialize]; it may return [null].
    The result is the batch given to [startBatch] and the completion
    function given with it; an exception before [startBatch] is [Err]. *)
Definition _write {Chunk V : Type} (self_serialize : Chunk -> Js (option Buffer))
    (chunk : Chunk) (encoding : Encoding)
  : Js (Batch * (option JsError.t -> Event.t -> list (Effect V))) :=
  let* message := self_serialize chunk in
  let* message :=
    match encoding with
    | FiniteNumber n =>
        match message with
        | Some b => Ok (Some (mkMessage b (Some n)))
        | None =>
            Err (JsError.TypeError "Cannot set property 'grpcWriteFlags' of null")
        end
    | OtherEncoding =>
        Ok (match message with Some b => Some (mkMessage b None) | None => None end)
    end in
  Ok ({| SEND_INITIAL_METADATA := None;
         SEND_MESSAGE := Some message;
         SEND_CLOSE_FROM_CLIENT := false;
         RECV_INITIAL_METADATA := false;
         RECV_MESSAGE := false;
         RECV_STATUS_ON_CLIENT := false |},
      fun err event =>
        match err with
        | Some _ => []
        | None => [write_callback]
        end).

(** The status of [response], after
    [response.status.metadata = Metadata._fromCoreRepresentation(...)]. *)
Definition response_status (response : Event.t) : Status.t :=
  Status.mk (Event.code (Event.status response))
            (Event.details (Event.status response))
            (Some (Metadata._fromCoreRepresentation
                     (Event.trailing (Event.status response)))).

(** The completion function of the single batch of [makeUnaryRequest].  Its
    first statement reads [response.status], before [err] is looked at, and
    throws when there is no response.
    [checked] is the outcome of the first conditional
    [if (status.code === grpc.status.OK) {...}]: an early return after
    [callback(err)] ([inl]), or the values of the variables [status] and
    [deserialized] after it ([inr]).  The error of the second conditional is
    built with [new Error(response.status.details)]; its [code] and
    [metadata] are those of the variable [status]. *)
Definition unary_completion {V : Type} (deserialize : option Buffer -> Js V)
  : Handler V :=
  fun err response =>
    match response with
    | None => Err (undefined_response "status")
    | Some response =>
        let status := response_status response in
        let checked : JsError.t + (Status.t * option V) :=
          if is_OK (Status.code status) then
            match err with
            | Some err => inl err
            | None =>
                match deserialize (Event.read response) with
                | Ok deserialized => inr (status, Some deserialized)
                | Err _ =>
                    inr (Status.mk INTERNAL "Failed to parse server response" None,
                         None)
                end
            end
          else inr (status, None) in
        Ok (match checked with
            | inl err => [callback (Some err) None]
            | inr (status, deserialized) =>
                (if negb (is_OK (Status.code status)) then
                   [callback
                      (Some (JsError.mk "Error"
                                        (Status.details (response_status response))
                                        (Some (Status.code status))
                                        (Status.metadata status)))
                      None]
                 else [callback None deserialized])
                ++ [emit_status status;
                    emit_metadata
                      (Metadata._fromCoreRepresentation (Event.metadata response))]
            end)
    end.

(** The completion function of the receive batch
    [{RECV_MESSAGE, RECV_STATUS_ON_CLIENT}] of [makeClientStreamRequest]: the
    same two conditionals, followed by [stream.emit('status', status)]
    only. *)
Definition client_stream_completion {V : Type} (deserialize : option Buffer -> Js V)
  : Handler V :=
  fun err response =>
    match response with
    | None => Err (undefined_response "status")
    | Some response =>
        let status := response_status response in
        let checked : JsError.t + (Status.t * option V) :=
          if is_OK (Status.code status) then
            match err with
            | Some err => inl err
            | None =>
                match deserialize (Event.read response) with
                | Ok deserialized => inr (status, Some deserialized)
                | Err _ =>
                    inr (Status.mk INTERNAL "Failed to parse server response" None,
                         None)
                end
            end
          else inr (status, None) in
        Ok (match checked with
            | inl err => [callback (Some err) None]
            | inr (status, deserialized) =>
                (if negb (is_OK (Status.code status)) then
                   [callback
                      (Some (JsError.mk "Error"
                                        (Status.details (response_status response))
                                        (Some (Status.code status))
                                        (Status.metadata status)))
                      None]
                 else [callback None deserialized])
                ++ [emit_status status]
            end)
    end.

(** The completion function of the metadata batch of the three streaming
    drivers: [if (err) { return; }] comes first, and [response.metadata] is
    read only after it. *)
Definition metadata_completion {V : Type} : Handler V :=
  fun err response =>
    match err with
    | Some _ => Ok []
    | None =>
        match response with
        | None => Err (undefined_response "metadata")
        | Some response =>
            Ok [emit_metadata
                  (Metadata._fromCoreRepresentation (Event.metadata response))]
        end
    end.

(** The completion function of the status batch of the server-streaming and
    bidirectional drivers.  Its first statement reads [response.status],
    before [err] is looked at, and throws when there is no response. *)
Definition status_completion {V : Type} : Handler V :=
  fun err response =>
    match response with
    | None => Err (undefined_response "status")
    | Some response =>
        let status := response_status response in
        Ok (emit_status status ::
            (if negb (is_OK (Status.code status)) then
               [emit_error (JsError.mk "Error" (Status.details status)
                                       (Some (Status.code status))
                                       (Status.metadata status))]
             else
               match err with
               | Some err => [emit_error err]
               | None => []
               end))
    end.

(** *** Metadata objects

    A [Metadata] object is mutable and is passed by reference: the store
    maps each object to its current entries. *)

Definition loc : Type := nat.

Abbreviation Store := (gmap loc Metadata.t).

Definition alloc (m : Metadata.t) (h : Store) : Store * loc :=
  let l := fresh (dom h) in (<[l := m]> h, l).

(** The entries of the object at [l]. *)
Definition read_metadata (h : Store) (l : loc) : Metadata.t :=
  default Metadata.empty (h !! l).

(** [metadata._getCoreRepresentation()] on the object at [metadata]. *)
Definition core_representation (h : Store) (metadata : loc)
  : Metadata.CoreRepresentation :=
  Metadata._getCoreRepresentation (read_metadata h metadata).

(** [new Metadata()] *)
Definition Metadata_new (h : Store) : Store * loc := alloc Metadata.empty h.

(** Modelled from the spec: [metadata.clone()] returns a fully independent
    copy: a new object with the same entries. *)
Definition Metadata_clone (metadata : loc) (h : Store) : Store * loc :=
  alloc (read_metadata h metadata) h.

(** The prologue shared by the four drivers:
    [if (metadata === null || metadata === undefined) metadata = new Metadata();
     else metadata = metadata.clone();] *)
Definition own_metadata (metadata : option loc) (h : Store) : Store * loc :=
  match metadata with
  | None => Metadata_new h
  | Some metadata => Metadata_clone metadata h
  end.

(** What a driver has done when it returns: the call it created, the
    metadata object it holds in its local variable [metadata], and the
    batches it started, each with its completion function.  [new grpc.Call]
    and [call.startBatch] belong to the native binding, whose code is not
    part of these sources: the drivers are followed along the runs in which
    the binding accepts the call and the batches, and what they throw is
    what the JavaScript of the driver itself throws. *)
Record Started (V : Type) : Type := mkStarted {
  call : Call.t;
  metadata : loc;
  batches : list (Batch * Handler V)
}.
Arguments mkStarted {V} call metadata batches.
Arguments call {V} s.
Arguments metadata {V} s.
Arguments batches {V} s.

Definition options_flags (options : option CallOptions.t) : option Z :=
  match options with
  | Some o => CallOptions.flags o
  | None => None
  end.

(** [if (options) { message.grpcWriteFlags = options.flags; }] on the value
    [serialize(argument)] returned: with options, a [null] message has no
    property to set. *)
Definition set_write_flags (message : option Buffer)
    (options : option CallOptions.t) : Js (option Message) :=
  match message, options with
  | Some message, _ => Ok (Some (mkMessage message (options_flags options)))
  | None, Some _ =>
      Err (JsError.TypeError "Cannot set property 'grpcWriteFlags' of null")
  | None, None => Ok None
  end.

Section Drivers.

Context {Arg V : Type}.
Variable method : string.
(** [serialize] may throw, and may return [null]. *)
Variable serialize : Arg -> Js (option Buffer).
Variable deserialize : option Buffer -> Js V.

(** [function makeUnaryRequest(argument, callback, metadata, options)];
    [channel] is [this.$channel]. *)
Definition makeUnaryRequest (channel : Channel.t) (argument : Arg)
    (metadata : option loc) (options : option CallOptions.t) (h : Store)
  : Store * Js (Started V) :=
  let call := getCall channel method options in
  let '(h, metadata) := own_metadata metadata h in
  match (let* message := serialize argument in
         set_write_flags message options) with
  | Err e => (h, Err e)
  | Ok message =>
      let client_batch :=
        {| SEND_INITIAL_METADATA := Some (core_representation h metadata);
           SEND_MESSAGE := Some message;
           SEND_CLOSE_FROM_CLIENT := true;
           RECV_INITIAL_METADATA := true;
           RECV_MESSAGE := true;
           RECV_STATUS_ON_CLIENT := true |} in
      (h, Ok (mkStarted call metadata
                [(client_batch, unary_completion deserialize)]))
  end.

(** [function makeClientStreamRequest(callback, metadata, options)] *)
Definition makeClientStreamRequest (channel : Channel.t)
    (metadata : option loc) (options : option CallOptions.t) (h : Store)
  : Store * Js (Started V) :=
  let call := getCall channel method options in
  let '(h, metadata) := own_metadata metadata h in
  let metadata_batch :=
    {| SEND_INITIAL_METADATA := Some (core_representation h metadata);
       SEND_MESSAGE := None;
       SEND_CLOSE_FROM_CLIENT := false;
       RECV_INITIAL_METADATA := true;
       RECV_MESSAGE := false;
       RECV_STATUS_ON_CLIENT := false |} in
  let client_batch :=
    {| SEND_INITIAL_METADATA := None;
       SEND_MESSAGE := None;
       SEND_CLOSE_FROM_CLIENT := false;
       RECV_INITIAL_METADATA := false;
       RECV_MESSAGE := true;
       RECV_STATUS_ON_CLIENT := true |} in
  (h, Ok (mkStarted call metadata
            [(metadata_batch, metadata_completion);
             (client_batch, client_stream_completion deserialize)])).

(** [function makeServerStreamRequest(argument, metadata, options)] *)
Definition makeServerStreamRequest (channel : Channel.t) (argument : Arg)
    (metadata : option loc) (options : option CallOptions.t) (h : Store)
  : Store * Js (Started V) :=
  let call := getCall channel method options in
  let '(h, metadata) := own_metadata metadata h in
  match (let* message := serialize argument in
         set_write_flags message options) with
  | Err e => (h, Err e)
  | Ok message =>
      let start_batch :=
        {| SEND_INITIAL_METADATA := Some (core_representation h metadata);
           SEND_MESSAGE := Some message;
           SEND_CLOSE_FROM_CLIENT := true;
           RECV_INITIAL_METADATA := true;
           RECV_MESSAGE := false;
           RECV_STATUS_ON_CLIENT := false |} in
      let status_batch :=
        {| SEND_INITIAL_METADATA := None;
           SEND_MESSAGE := None;
           SEND_CLOSE_FROM_CLIENT := false;
           RECV_INITIAL_METADATA := false;
           RECV_MESSAGE := false;
           RECV_STATUS_ON_CLIENT := true |} in
      (h, Ok (mkStarted call metadata
                [(start_batch, metadata_completion);
                 (status_batch, status_completion)]))
  end.

(** [function makeBidiStreamRequest(metadata, options)] *)
Definition makeBidiStreamRequest (channel : Channel.t)
    (metadata : option loc) (options : option CallOptions.t) (h : Store)
  : Store * Js (Started V) :=
  let call := getCall channel method options in
  let '(h, metadata) := own_metadata metadata h in
  let start_batch :=
    {| SEND_INITIAL_METADATA := Some (core_representation h metadata);
       SEND_MESSAGE := None;
       SEND_CLOSE_FROM_CLIENT := false;
       RECV_INITIAL_METADATA := true;
       RECV_MESSAGE := false;
       RECV_STATUS_ON_CLIENT := false |} in
  let status_batch :=
    {| SEND_INITIAL_METADATA := None;
       SEND_MESSAGE := None;
       SEND_CLOSE_FROM_CLIENT := false;
       RECV_INITIAL_METADATA := false;
       RECV_MESSAGE := false;
       RECV_STATUS_ON_CLIENT := true |} in
  (h, Ok (mkStarted call metadata
            [(start_batch, metadata_completion);
             (status_batch, status_completion)])).

End Drivers.

(** *** The client factory *)

Inductive method_type : Type :=
| unary
| server_stream
| client_stream
| bidi.

(** [var requester_makers = {unary: ..., server_stream: ..., client_stream:
    ..., bidi: ...}]: the request function that the maker of each shape
    returns for [(method, serialize, deserialize)].  The four functions are
    given one argument list here; the shapes that stream their requests take
    no [argument], and [channel] is [this.$channel]. *)
Definition requester_makers {Arg V : Type} (t : method_type) (method : string)
    (serialize : Arg -> Js (option Buffer)) (deserialize : option Buffer -> Js V)
    (channel : Channel.t) (argument : Arg) (metadata : option loc)
    (options : option CallOptions.t) (h : Store) : Store * Js (Started V) :=
  match t with
  | unary =>
      makeUnaryRequest method serialize deserialize channel argument metadata options h
  | server_stream =>
      makeServerStreamRequest method serialize channel argument metadata options h
  | client_stream =>
      makeClientStreamRequest method deserialize channel metadata options h
  | bidi =>
      makeBidiStreamRequest method channel metadata options h
  end.

Section Factory.

Context {Arg V : Type}.

(** The attributes of one entry of the [methods] object. *)
Record MethodAttrs : Type := mkAttrs {
  path : string;
  requestStream : bool;
  responseStream : bool;
  requestSerialize : Arg -> Js (option Buffer);
  responseDeserialize : option Buffer -> Js V
}.

(** The function [requester_makers[method_type](attrs.path, serialize,
    deserialize)] stored in [Client.prototype[name]], as the closure it is:
    which maker built it and the three values it captured (the last two are
    also its [serialize] and [deserialize] properties). *)
Record Requester : Type := mkRequester {
  maker : method_type;
  requester_path : string;
  requester_serialize : Arg -> Js (option Buffer);
  requester_deserialize : option Buffer -> Js V
}.

(** The body of the function given to [_.each(methods, ...)], after the
    check of the name. *)
Definition make_requester (attrs : MethodAttrs) : Requester :=
  let method_type :=
    if requestStream attrs then
      if responseStream attrs then bidi else client_stream
    else
      if responseStream attrs then server_stream else unary in
  let serialize := requestSerialize attrs in
  let deserialize := responseDeserialize attrs in
  mkRequester method_type (path attrs) serialize deserialize.

(** [_.startsWith(name, '$')] *)
Definition startsWith (name : string) (target : string) : bool :=
  String.prefix target name.

(** [_.each(methods, function(attrs, name) {...})] over the entries of
    [methods] in iteration order; a [throw] ends the iteration. *)
Fixpoint each_method (entries : list (string * MethodAttrs))
    (prototype : gmap string Requester) : Js (gmap string Requester) :=
  match entries with
  | [] => Ok prototype
  | (name, attrs) :: rest =>
      if startsWith name "$" then
        Err (JsError.Error "Method names cannot start with $")
      else each_method rest (<[name := make_requester attrs]> prototype)
  end.

(** [exports.makeClientConstructor = function(methods, serviceName)]: the
    returned constructor is represented by its prototype. *)
Definition makeClientConstructor (methods : gmap string MethodAttrs)
    (serviceName : string) : Js (gmap string Requester) :=
  each_method (map_to_list methods) ∅.

End Factory.

Arguments MethodAttrs Arg V : clear implicits.
Arguments Requester Arg V : clear implicits.

(** The options object [function Client(address, credentials, options)]
    hands to [new grpc.Channel]: the caller's object (or a new empty one)
    after the assignment to its [grpc.primary_user_agent] entry.  [version]
    is the [version] field of [package.json], which is not part of the
    sources. *)
Definition Client_options (version : string)
    (options : option (gmap string Channel.JsValue))
  : gmap string Channel.JsValue :=
  let options := match options with None => ∅ | Some options => options end in
  <["grpc.primary_user_agent" := Channel.JsString ("grpc-node/" +:+ version)]> options.

(** [function Client(address, credentials, options)]: the new object's
    [$channel] field. *)
Definition Client (version : string) (address : string)
    (credentials : Credentials.ChannelCredentials)
    (options : option (gmap string Channel.JsValue)) : Js Channel.t :=
  Channel.New address credentials (Some (Client_options version options)).

End Client.

(** ** The reference test service ([interop_server.js]) *)

Module InteropServer.

Definition ECHO_INITIAL_KEY : string := "x-grpc-test-echo-initial".
Definition ECHO_TRAILING_KEY : string := "x-grpc-test-echo-trailing-bin".

(** [function zeroBuffer(size)] *)
Definition zeroBuffer (size : N) : Buffer := repeat x00 (N.to_nat size).

Inductive PayloadType : Type :=
| COMPRESSABLE
| UNCOMPRESSABLE
| RANDOM.

Record Payload : Type := mkPayload {
  type : option PayloadType;
  body : Buffer
}.

Record ResponseParameters : Type := mkParams {
  size : N
}.

(** A request message of the test protocol; an unset [payload] is [null]. *)
Record Request : Type := mkRequest {
  response_type : PayloadType;
  response_size : N;
  payload : option Payload;
  response_parameters : list ResponseParameters
}.

(** The response objects the handlers build: [{}], [{payload: ...}] and
    [{aggregated_payload_size: ...}]. *)
Inductive Response : Type :=
| Empty
| WithPayload (payload : Payload)
| Aggregated (aggregated_payload_size : N).

(** The server-side call object: the initial metadata the client sent and,
    for the shapes with a single request, the request. *)
Record Call : Type := mkCall {
  metadata : Metadata.t;
  request : Request
}.

(** What a handler does on its call, in order: [call.sendMetadata(md)],
    [call.write(message)], [callback(null, value, trailer)] and
    [call.end(trailer)]. *)
Inductive Action : Type :=
| sendMetadata (response_metadata : Metadata.t)
| write (message : Response)
| callback (value : Response) (trailer : Metadata.t)
| end_ (trailer : Metadata.t).

(** A handler run: the actions performed, and whether the run returned or
    threw (the actions before a throw have been performed). *)
Definition Run : Type := list Action * Js unit.

(** [function echoHeader(call)] *)
Definition echoHeader (call : Call) : list Action :=
  let echo_initial := Metadata.get (metadata call) ECHO_INITIAL_KEY in
  match echo_initial with
  | first :: _ =>
      let response_metadata := Metadata.empty in
      let response_metadata := Metadata.set response_metadata ECHO_INITIAL_KEY first in
      [sendMetadata response_metadata]
  | [] => []
  end.

(** [function getEchoTrailer(call)] *)
Definition getEchoTrailer (call : Call) : Metadata.t :=
  let echo_trailer := Metadata.get (metadata call) ECHO_TRAILING_KEY in
  let response_trailer := Metadata.empty in
  match echo_trailer with
  | first :: _ => Metadata.set response_trailer ECHO_TRAILING_KEY first
  | [] => response_trailer
  end.

(** [if (payload_type === 'RANDOM') payload_type = [...][Math.random() < 0.5 ? 0 : 1]];
    [coin] is the outcome of [Math.random() < 0.5]. *)
Definition pick_type (payload_type : PayloadType) (coin : bool) : PayloadType :=
  match payload_type with
  | RANDOM => if coin then COMPRESSABLE else UNCOMPRESSABLE
  | t => t
  end.

(** [function handleEmpty(call, callback)] *)
Definition handleEmpty (call : Call) : Run :=
  (echoHeader call ++ [callback Empty (getEchoTrailer call)], Ok tt).

(** [function handleUnary(call, callback)] *)
Definition handleUnary (call : Call) (coin : bool) : Run :=
  let req := request call in
  let zeros := zeroBuffer (response_size req) in
  let payload_type := pick_type (response_type req) coin in
  (echoHeader call ++
   [callback (WithPayload (mkPayload (Some payload_type) zeros)) (getEchoTrailer call)],
   Ok tt).

(** The ['data'] listener of [handleStreamingInput]:
    [aggregate_size += value.payload.body.length], a [TypeError] when
    [value.payload] is [null]. *)
Definition streamingInput_data (aggregate_size : N) (value : Request) : Js N :=
  match payload value with
  | Some p => Ok (aggregate_size + N.of_nat (length (body p)))%N
  | None => Err (JsError.TypeError "Cannot read property 'body' of null")
  end.

(** The ['data'] events of [handleStreamingInput], one per inbound message. *)
Fixpoint streamingInput_loop (aggregate_size : N) (inbound : list Request) : Js N :=
  match inbound with
  | [] => Ok aggregate_size
  | value :: rest =>
      let* aggregate_size := streamingInput_data aggregate_size value in
      streamingInput_loop aggregate_size rest
  end.

(** [function handleStreamingInput(call, callback)], run on the inbound
    messages followed by the ['end'] event. *)
Definition handleStreamingInput (call : Call) (inbound : list Request) : Run :=
  let aggregate_size := 0%N in
  match streamingInput_loop aggregate_size inbound with
  | Ok aggregate_size =>
      (echoHeader call ++
       [callback (Aggregated aggregate_size) (getEchoTrailer call)], Ok tt)
  | Err e => (echoHeader call, Err e)
  end.

(** [_.each(response_parameters, function(resp_param) { call.write(...) })] *)
Definition write_each (payload_type : PayloadType)
    (response_parameters : list ResponseParameters) : list Action :=
  List.map (fun resp_param =>
              write (WithPayload (mkPayload (Some payload_type)
                                            (zeroBuffer (size resp_param)))))
           response_parameters.

(** [function handleStreamingOutput(call)] *)
Definition handleStreamingOutput (call : Call) (coin : bool) : Run :=
  let req := request call in
  let payload_type := pick_type (response_type req) coin in
  (echoHeader call ++ write_each payload_type (response_parameters req) ++
   [end_ (getEchoTrailer call)], Ok tt).

(** The ['data'] listener of [handleFullDuplex]. *)
Definition fullDuplex_data (value : Request) (coin : bool) : list Action :=
  let payload_type := pick_type (response_type value) coin in
  write_each payload_type (response_parameters value).

(** [function handleFullDuplex(call)], run on the inbound messages (each with
    the coin its listener flips) followed by the ['end'] event. *)
Definition handleFullDuplex (call : Call) (inbound : list (Request * bool)) : Run :=
  (echoHeader call ++
   List.concat (List.map (fun vc => fullDuplex_data (fst vc) (snd vc)) inbound) ++
   [end_ (getEchoTrailer call)], Ok tt).

(** [function handleHalfDuplex(call)] *)
Definition handleHalfDuplex (call : Call) : Run :=
  ([], Err (JsError.Error "HalfDuplexCall not yet implemented")).

(** An inbound call: the method it names, its call object, and what arrives
    on it. *)
Inductive Inbound : Type :=
| emptyCall (call : Call)
| unaryCall (call : Call) (coin : bool)
| streamingOutputCall (call : Call) (coin : bool)
| streamingInputCall (call : Call) (inbound : list Request)
| fullDuplexCall (call : Call) (inbound : list (Request * bool))
| halfDuplexCall (call : Call).

Definition call_of (i : Inbound) : Call :=
  match i with
  | emptyCall call | unaryCall call _ | streamingOutputCall call _
  | streamingInputCall call _ | fullDuplexCall call _ | halfDuplexCall call => call
  end.

(** The handler table given to [server.addProtoService]. *)
Definition serve (i : Inbound) : Run :=
  match i with
  | emptyCall call => handleEmpty call
  | unaryCall call coin => handleUnary call coin
  | streamingOutputCall call coin => handleStreamingOutput call coin
  | streamingInputCall call inbound => handleStreamingInput call inbound
  | fullDuplexCall call inbound => handleFullDuplex call inbound
  | halfDuplexCall call => handleHalfDuplex call
  end.

(** Every method but [halfDuplexCall] has an implementation. *)
Definition implemented (i : Inbound) : bool :=
  match i with
  | halfDuplexCall _ => false
  | _ => true
  end.

(** The inbound message [value] with its [payload] field set to [p]. *)
Definition set_payload (value : Request) (p : Payload) : Request :=
  mkRequest (response_type value) (response_size value) (Some p)
            (response_parameters value).

(** The trailing metadata an action hands over, if it is a final one. *)
Definition trailer_of (a : Action) : option Metadata.t :=
  match a with
  | callback _ trailer => Some trailer
  | end_ trailer => Some trailer
  | _ => None
  end.

Definition is_sendMetadata (a : Action) : bool :=
  match a with
  | sendMetadata _ => true
  | _ => false
  end.

(** An action that neither sends initial metadata nor hands over a trailer. *)
Definition plain (a : Action) : Prop :=
  is_sendMetadata a = false /\ trailer_of a = None.

End InteropServer.

(** ** Sample inputs *)

Module Sample.

Definition ssl : Credentials.ChannelCredentials := Credentials.Ssl [] None.

Definition bearer (token : string) : Credentials.CallCredentials :=
  Credentials.FromMetadataGenerator
    (fun _ => Metadata.add Metadata.empty "authorization"
                (Metadata.Text ("Bearer " +:+ token))).

Definition k1 : Credentials.CallCredentials := bearer "one".
Definition k2 : Credentials.CallCredentials := bearer "two".

(** A response deserializer that accepts every non-null buffer and returns
    its length, and one that rejects everything. *)
Definition parse (b : option Buffer) : Js nat :=
  match b with
  | Some b => Ok (length b)
  | None => Err (JsError.TypeError "Cannot read property 'length' of null")
  end.

Definition parse_fail (b : option Buffer) : Js nat :=
  Err (JsError.Error "Illegal buffer").

Definition trailer : Metadata.CoreRepresentation :=
  [("x-trailer", Metadata.Text "t")].

(** A completion event with status OK, and one with status NOT_FOUND. *)
Definition response_ok : Event.t :=
  Event.mk (Some [x01; x02]) (Event.mk_status OK "" trailer) [].

Definition response_not_found : Event.t :=
  Event.mk None (Event.mk_status NOT_FOUND "no such thing" trailer) [].

Definition batch_error : JsError.t := JsError.Error "startBatch failed".

(** The [serialize] of a writable stream over buffers: [null] stays [null]. *)
Definition serialize_chunk (chunk : option Buffer) : Js (option Buffer) := Ok chunk.

(** The batch and the completion function of a write of two bytes with
    write flags 2. *)
Definition write_batch : Client.Batch :=
  {| Client.SEND_INITIAL_METADATA := None;
     Client.SEND_MESSAGE := Some (Some (Client.mkMessage [x01; x02] (Some 2%Z)));
     Client.SEND_CLOSE_FROM_CLIENT := false;
     Client.RECV_INITIAL_METADATA := false;
     Client.RECV_MESSAGE := false;
     Client.RECV_STATUS_ON_CLIENT := false |}.

Definition write_completion (err : option JsError.t) (event : Event.t)
  : list (Client.Effect nat) :=
  match err with
  | Some _ => []
  | None => [Client.write_callback]
  end.

Definition channel : Channel.t := Channel.mk "localhost:50051" ssl None.

(** A caller's metadata object at location 0 of the store. *)
Definition caller_metadata : Metadata.t :=
  [("x-grpc-test-echo-initial", Metadata.Text "test_initial_metadata_value")].

Definition store : gmap Client.loc Metadata.t := {[ 0%nat := caller_metadata ]}.

Definition serialize (argument : Buffer) : Js (option Buffer) := Ok (Some argument).

Definition attrs (requestStream responseStream : bool)
  : Client.MethodAttrs Buffer nat :=
  Client.mkAttrs "/grpc.testing.TestService/Method" requestStream responseStream
                 serialize parse.

(** A methods object with a reserved name, and one without. *)
Definition reserved_methods : gmap string (Client.MethodAttrs Buffer nat) :=
  {[ "$foo" := attrs false false ]}.

Definition test_methods : gmap string (Client.MethodAttrs Buffer nat) :=
  {[ "unaryCall" := attrs false false ]}.

(** The metadata of the [custom_metadata] interop test, and a call that
    carries it. *)
Definition echo_metadata : Metadata.t :=
  [("x-grpc-test-echo-initial", Metadata.Text "test_initial_metadata_value");
   ("x-grpc-test-echo-trailing-bin", Metadata.Binary [xab; xab; xab])].

Definition request : InteropServer.Request :=
  InteropServer.mkRequest InteropServer.COMPRESSABLE 3 None [].

Definition echo_call : InteropServer.Call :=
  InteropServer.mkCall echo_metadata request.

(** Caller options that set a user agent of their own. *)
Definition user_agent_options : gmap string Channel.JsValue :=
  {[ "grpc.primary_user_agent" := Channel.JsString "my-app/1.0" ]}.

Definition with_deadline (d : option CallOptions.Deadline) : CallOptions.t :=
  CallOptions.mk d None None None (Some k1) None.

End Sample.

(** ** The readable side of the client streams ([_read]) *)

Module ReadableStream.

(** The two flags [_read] and its [readCallback] keep on the stream. *)
Record State : Type := mk {
  finished : bool;
  reading : bool
}.

(** [this.finished = false; this.reading = false;] of the constructor. *)
Definition initial : State := mk false false.

(** The argument of [self.push]: the deserialized value, [null] (what
    [self.deserialize] returns at the end of the stream), or [undefined] (the
    variable [deserialized] after [self.deserialize] threw). *)
Inductive Pushed (V : Type) : Type :=
| undefined
| null
| value (v : V).
Arguments undefined {V}.
Arguments null {V}.
Arguments value {V} v.

(** What [_read] and [readCallback] do, in order: [self.push(...)],
    [self.call.startBatch({RECV_MESSAGE: true}, readCallback)] and
    [self.call.cancelWithStatus(code, details)]. *)
Inductive Action (V : Type) : Type :=
| push (p : Pushed V)
| startBatch
| cancelWithStatus (code : StatusCode) (details : string).
Arguments push {V} p.
Arguments startBatch {V}.
Arguments cancelWithStatus {V} code details.

(** The body of [function _read(size)] after the declaration of
    [readCallback]. *)
Definition _read {V : Type} (self : State) : State * list (Action V) :=
  if finished self then (self, [push null])
  else
    if negb (reading self) then (mk (finished self) true, [startBatch])
    else (self, []).

(** [function readCallback(err, event)]: [data] is [event.read],
    [self_deserialize] is [self.deserialize] (it may return [null]), and
    [push_result] is what [self.push(deserialized)] returns. *)
Definition readCallback {V : Type} (self_deserialize : option Buffer -> Js (option V))
    (self : State) (err : option JsError.t) (data : option Buffer)
    (push_result : bool) : State * list (Action V) :=
  match err with
  | Some _ => (mk true (reading self), [])
  | None =>
      let '(deserialized, cancelled) :=
        match self_deserialize data with
        | Ok (Some v) => (value v, [])
        | Ok None => (null, [])
        | Err _ =>
            (undefined,
             [cancelWithStatus INTERNAL "Failed to parse server response"])
        end in
      if push_result && bool_decide (data <> None) then
        (self, cancelled ++ [push deserialized; startBatch])
      else
        (mk (finished self) false, cancelled ++ [push deserialized])
  end.

(** A stream in use: its flags and the number of read batches that have
    been started and have not completed yet. *)
Record System : Type := mkSystem {
  state : State;
  outstanding : nat
}.

Definition initial_system : System := mkSystem initial 0.

(** What happens to a stream: the consumer's machinery calls [_read], or a
    started read batch completes and its [readCallback] runs. *)
Inductive Input : Type :=
| Read
| Complete (err : option JsError.t) (data : option Buffer) (push_result : bool).

Definition is_startBatch {V : Type} (a : Action V) : bool :=
  match a with
  | startBatch => true
  | _ => false
  end.

(** The number of batches a list of actions starts. *)
Definition started {V : Type} (actions : list (Action V)) : nat :=
  length (List.filter is_startBatch actions).

(** One input; [None] when a completion arrives though no batch is
    outstanding, which the transport never does. *)
Definition step {V : Type} (self_deserialize : option Buffer -> Js (option V))
    (sys : System) (i : Input) : option (System * list (Action V)) :=
  match i with
  | Read =>
      let '(st, actions) := _read (state sys) in
      Some (mkSystem st (outstanding sys + started actions), actions)
  | Complete err data push_result =>
      match outstanding sys with
      | O => None
      | S n =>
          let '(st, actions) :=
            readCallback self_deserialize (state sys) err data push_result in
          Some (mkSystem st (n + started actions), actions)
      end
  end.

(** A sequence of inputs, with the actions performed along it. *)
Fixpoint run {V : Type} (self_deserialize : option Buffer -> Js (option V))
    (sys : System) (inputs : list Input) : option (System * list (Action V)) :=
  match inputs with
  | [] => Some (sys, [])
  | i :: rest =>
      match step self_deserialize sys i with
      | None => None
      | Some (sys', actions) =>
          match run self_deserialize sys' rest with
          | None => None
          | Some (sys'', actions') => Some (sys'', actions ++ actions')
          end
      end
  end.

(** The flags account for the read batches in flight: one while the stream
    is reading and has not finished, none otherwise. *)
Definition accounted (sys : System) : Prop :=
  outstanding sys
  = if reading (state sys) && negb (finished (state sys)) then 1 else 0.

End ReadableStream.

(** ** The life of the wrapped channel ([Channel::Close], [~Channel],
       [Channel::GetTarget], [Channel::GetConnectivityState]) *)

Module ChannelLifecycle.

(** The calls into the core library, with the channel pointer they are
    given ([None] is [NULL]). *)
Inductive CoreCall : Type :=
| grpc_channel_destroy (channel : nat)
| grpc_channel_get_target (channel : option nat)
| grpc_channel_check_connectivity_state (channel : option nat) (try_to_connect : bool).

(** The methods called on a [Channel] object. *)
Inductive Method : Type :=
| Close
| GetTarget
| GetConnectivityState (try_to_connect : bool).

(** One method call on a channel object whose [wrapped_channel] field is
    [wrapped_channel]: the new value of the field and the calls made. *)
Definition call (wrapped_channel : option nat) (m : Method)
  : option nat * list CoreCall :=
  match m with
  | Close =>
      match wrapped_channel with
      | Some c => (None, [grpc_channel_destroy c])
      | None => (wrapped_channel, [])
      end
  | GetTarget => (wrapped_channel, [grpc_channel_get_target wrapped_channel])
  | GetConnectivityState try_to_connect =>
      (wrapped_channel,
       [grpc_channel_check_connectivity_state wrapped_channel try_to_connect])
  end.

(** [Channel::~Channel()] *)
Definition destructor (wrapped_channel : option nat) : list CoreCall :=
  match wrapped_channel with
  | Some c => [grpc_channel_destroy c]
  | None => []
  end.

(** A sequence of method calls on one channel object. *)
Fixpoint calls (wrapped_channel : option nat) (ms : list Method)
  : option nat * list CoreCall :=
  match ms with
  | [] => (wrapped_channel, [])
  | m :: rest =>
      let '(w, trace) := call wrapped_channel m in
      let '(w', trace') := calls w rest in
      (w', trace ++ trace')
  end.

(** The whole life of a channel object that wraps [c]: the method calls,
    then the destructor. *)
Definition life (c : nat) (ms : list Method) : list CoreCall :=
  let '(w, trace) := calls (Some c) ms in
  trace ++ destructor w.

Definition is_Close (m : Method) : bool :=
  match m with
  | Close => true
  | _ => false
  end.

Definition is_destroy (k : CoreCall) : bool :=
  match k with
  | grpc_channel_destroy _ => true
  | _ => false
  end.

(** The channel pointer a call is given, when it is not a destroy. *)
Definition uses (k : CoreCall) : option (option nat) :=
  match k with
  | grpc_channel_destroy _ => None
  | grpc_channel_get_target c => Some c
  | grpc_channel_check_connectivity_state c _ => Some c
  end.

End ChannelLifecycle.

(** ** Waiting for a client to be ready ([waitForClientReady]) *)

Module Connectivity.

(** The values of [grpc.connectivityState] that [checkState] tells apart:
    [READY], [FATAL_FAILURE], and every other state. *)
Inductive State : Type :=
| READY
| FATAL_FAILURE
| Other (n : nat).

(** What [checkState] does: it calls [callback], or registers itself with
    [client.$channel.watchConnectivityState(new_state, deadline, checkState)]. *)
Inductive Action : Type :=
| callback (err : option JsError.t)
| watchConnectivityState (new_state : State) (deadline : CallOptions.Deadline).



(** The arguments of the [callback] invocations of a run, in order. *)
Definition callbacks (actions : list Action) : list (option JsError.t) :=
  flat_map (fun a => match a with callback err => [err] | _ => [] end) actions.



End Connectivity.

(** ** Credentials from metadata generators *)

Module Plugin.

(** What the function given to [CallCredentials.createFromPlugin] passes to
    the native [callback]: a status code, a message and the metadata in the
    core representation. *)
Definition Report : Type := StatusCode * string * Metadata.CoreRepresentation.

(** What a metadata generator passes to its callback: [(error, metadata)],
    each [None] when it is [null] or left out. *)
Definition Generated : Type := option JsError.t * option Metadata.t.

(** [exports.createFromMetadataGenerator = function(metadata_generator)]:
    the plugin function it wraps the generator in.  An error has its own
    [code] property when [JsError.code] is [Some]. *)
Definition createFromMetadataGenerator (metadata_generator : string -> Generated)
    (service_url : string) : Js Report :=
  let '(error, metadata) := metadata_generator service_url in
  let code := OK in
  let message := "" in
  let '(code, message) :=
    match error with
    | Some error =>
        (match JsError.code error with Some c => c | None => code end,
         JsError.message error)
    | None => (code, message)
    end in
  match metadata with
  | Some metadata => Ok (code, message, Metadata._getCoreRepresentation metadata)
  | None =>
      Err (JsError.TypeError
             "Cannot read property '_getCoreRepresentation' of undefined")
  end.

(** The [header] object a Google credential hands over. *)
Record Header : Type := mkHeader {
  Authorization : string
}.

(** [exports.createFromGoogleCredential = function(google_credential)]:
    [getRequestMetadata] is the credential's method, giving [(err, header)]. *)
Definition createFromGoogleCredential
    (getRequestMetadata : string -> option JsError.t * Header)
    (service_url : string) : Js Report :=
  createFromMetadataGenerator
    (fun service_url =>
       let '(err, header) := getRequestMetadata service_url in
       match err with
       | Some err => (Some err, None)
       | None =>
           let metadata := Metadata.empty in
           let metadata :=
             Metadata.add metadata "authorization"
                          (Metadata.Text (Authorization header)) in
           (None, Some metadata)
       end)
    service_url.

End Plugin.

(** ** The interop client's test helper ([multiDone]) *)

Module InteropClient.

(** One call of the function [multiDone(done, count)] returns: the new value
    of the captured [count], and whether [done] was called. *)
Definition multiDone_call (count : Z) : Z * bool :=
  let count := (count - 1)%Z in
  (count, (count <=? 0)%Z).

(** [n] calls in a row: for each call, whether it called [done]. *)
Fixpoint multiDone (count : Z) (n : nat) : list bool :=
  match n with
  | O => []
  | S n' =>
      let '(count, called) := multiDone_call count in
      called :: multiDone count n'
  end.

End InteropClient.

(** ** Reading handler runs *)

Module Observed.




(** The credentials a composed call credential is made of, left to right. *)
Fixpoint leaves (k : Credentials.CallCredentials)
  : list Credentials.CallCredentials :=
  match k with
  | Credentials.ComposedCall k1 k2 => leaves k1 ++ leaves k2
  | generator => [generator]
  end.

(** The batches of a list of started batches that set a given slot. *)
Definition count_batches {V : Type} (slot : Client.Batch -> bool)
    (batches : list (Client.Batch * Client.Handler V)) : nat :=
  length (List.filter (fun b => slot (fst b)) batches).

Definition sends_metadata (b : Client.Batch) : bool :=
  bool_decide (is_Some (Client.SEND_INITIAL_METADATA b)).

Definition sends_message (b : Client.Batch) : bool :=
  bool_decide (is_Some (Client.SEND_MESSAGE b)).

(** A value that [Channel::New] takes as a channel argument: a string, or a
    number that is an int32. *)
Definition acceptable (v : Channel.JsValue) : Prop :=
  match v with
  | Channel.JsString _ => True
  | Channel.JsNumber n => (- 2147483648 <= n <= 2147483647)%Z
  | Channel.JsOther => False
  end.

End Observed.

(** ** More sample inputs *)

Module Inputs.

(** The [deserialize] of a readable stream: [null] stays [null], a buffer
    becomes its length. *)
Definition deserialize_message (b : option Buffer) : Js (option nat) :=
  match b with
  | Some b => Ok (Some (length b))
  | None => Ok None
  end.


(** Channel options with a message size limit and an authority. *)
Definition channel_options : gmap string Channel.JsValue :=
  {[ "grpc.max_receive_message_size" := Channel.JsNumber 4194304;
     "grpc.default_authority" := Channel.JsString "foo.test.google.fr" ]}.

(** Channel options whose number does not fit an int32. *)
Definition bad_options : gmap string Channel.JsValue :=
  {[ "grpc.max_receive_message_size" := Channel.JsNumber 2147483648 ]}.

End Inputs.

(** * Properties *)

(** ** Metadata *)

Lemma key_eqb_refl k : Metadata.key_eqb k k = true.
Proof. unfold Metadata.key_eqb. apply String.eqb_refl. Qed.

Lemma get_empty k : Metadata.get Metadata.empty k = [].
Proof. reflexivity. Qed.

Lemma get_set_same m k v : Metadata.get (Metadata.set m k v) k = [v].
Proof.
  unfold Metadata.get, Metadata.set. rewrite List.filter_app, List.map_app. simpl.
  rewrite key_eqb_refl. simpl.
  replace (List.filter (fun e => Metadata.key_eqb (fst e) k)
             (List.filter (fun e => negb (Metadata.key_eqb (fst e) k)) m))
    with (@nil (string * Metadata.Value)); [reflexivity|].
  induction m as [|[k' v'] m IH]; simpl; [reflexivity|].
  destruct (Metadata.key_eqb k' k) eqn:E; simpl; [exact IH|].
  rewrite E. exact IH.
Qed.

(** ** Credentials algebra *)

(** The assertions of [ChannelCredentialsTest] hold of the model. *)
Example InsecureCredentials_IsNonComposable :
  Credentials.isComposable Credentials.Insecure = false.
Proof. reflexivity. Qed.

Example ChannelCredentials_CreateComposite :
  (exists composite,
      Credentials.composeChannel (Some (Credentials.Fake true)) (Some Sample.k1)
      = Ok composite /\ Credentials.isComposable composite = false)
  /\ Credentials.composeChannel None (Some Sample.k1) = Err Credentials.InvalidArgument
  /\ Credentials.composeChannel (Some (Credentials.Fake true)) None
     = Err Credentials.InvalidArgument
  /\ Credentials.composeChannel (Some (Credentials.Fake false)) (Some Sample.k1)
     = Err Credentials.InvalidArgument.
Proof. repeat split. eexists. split; reflexivity. Qed.

Lemma composeChannel_Ok c k r :
  Credentials.composeChannel c k = Ok r ->
  exists c' k', c = Some c' /\ k = Some k'
                /\ Credentials.isComposable c' = true
                /\ r = Credentials.Composite c' k'.
Proof.
  destruct c as [c'|], k as [k'|]; simpl; try discriminate.
  destruct (Credentials.isComposable c') eqn:Hc; [|discriminate].
  intros [= <-]. exists c', k'. repeat split; assumption.
Qed.

(** C2: composing the insecure channel credential with any call credential
    is an invalid-argument error, so is composing with either argument
    absent, and every successful [composeChannel c k] yields a credential
    whose [isComposable] flag is false. *)
Theorem composeChannel_rules :
  forall (c : option Credentials.ChannelCredentials)
         (k : option Credentials.CallCredentials),
    Credentials.composeChannel (Some Credentials.Insecure) k
    = Err Credentials.InvalidArgument
    /\ Credentials.composeChannel c None = Err Credentials.InvalidArgument
    /\ Credentials.composeChannel None k = Err Credentials.InvalidArgument
    /\ (forall r, Credentials.composeChannel c k = Ok r ->
                  Credentials.isComposable r = false).
Proof.
  intros c k. repeat split.
  - destruct k; reflexivity.
  - destruct c; reflexivity.
  - intros r Hr.
    destruct (composeChannel_Ok _ _ _ Hr) as (c' & k' & _ & _ & _ & ->).
    reflexivity.
Qed.

(** The last rule at a composable credential: the composition succeeds and
    its result is non-composable. *)
Lemma composeChannel_rules_witness :
  Credentials.composeChannel (Some Sample.ssl) (Some Sample.k1)
  = Ok (Credentials.Composite Sample.ssl Sample.k1)
  /\ Credentials.isComposable (Credentials.Composite Sample.ssl Sample.k1) = false.
Proof.
  split; [reflexivity|].
  apply (proj2 (proj2 (proj2
           (composeChannel_rules (Some Sample.ssl) (Some Sample.k1))))).
  reflexivity.
Defined.

Lemma combine_loop_snoc {Chan Call E : Type}
    (compose : Chan -> Call -> Result E Chan) (ks : list Call) :
  forall (c : Chan) (k : Call),
    Credentials.combineChannelCredentials_loop compose c (ks ++ [k])
    = (let* current := Credentials.combineChannelCredentials_loop compose c ks in
       compose current k).
Proof.
  induction ks as [|k0 ks IH]; intros c k; simpl.
  - destruct (compose c k); reflexivity.
  - destruct (compose c k0) as [next|e]; simpl; [apply IH | reflexivity].
Qed.

(** C3, as the code has it: [combineChannelCredentials] is the left-to-right
    chain of channel-level [compose] calls, whatever the two [compose]
    methods do: without call credentials it returns the channel credential,
    with one it is [compose c k] (and [combineCallCredentials] of that one
    credential is the credential itself), with two it is
    [compose (compose c k1) k2], and in general each further call credential
    is composed onto the result so far.  [combineCallCredentials] is never
    used. *)
Theorem combineChannelCredentials_left_chain :
  forall (Chan Call E : Type) (compose : Chan -> Call -> Result E Chan)
         (compose_call : Call -> Call -> Call)
         (c : Chan) (ks : list Call) (k k1 k2 : Call),
    Credentials.combineChannelCredentials compose c [] = Ok c
    /\ Credentials.combineChannelCredentials compose c [k] = compose c k
    /\ Credentials.combineCallCredentials compose_call [k] = Some k
    /\ Credentials.combineChannelCredentials compose c [k1; k2]
       = (let* current := compose c k1 in compose current k2)
    /\ Credentials.combineChannelCredentials compose c (ks ++ [k])
       = (let* current := Credentials.combineChannelCredentials compose c ks in
          compose current k).
Proof.
  intros Chan Call E compose compose_call c ks k k1 k2.
  unfold Credentials.combineChannelCredentials.
  split; [reflexivity|]. split; [|split; [reflexivity|split]].
  - simpl. destruct (compose c k); reflexivity.
  - simpl. destruct (compose c k1) as [current|e]; simpl; [|reflexivity].
    destruct (compose current k2); reflexivity.
  - apply combine_loop_snoc.
Qed.

(** C3 fails as stated: on an SSL credential and two call credentials the
    convenience forms the chain [compose (compose c k1) k2], a composite of
    a composite, while [compose c (composeCall k1 k2)] is a composite of the
    SSL credential with one composed call credential. *)
Lemma combine_is_not_reduction :
  Credentials.combineChannelCredentials Credentials.channel_compose
    Sample.ssl [Sample.k1; Sample.k2]
  = Ok (Credentials.Composite (Credentials.Composite Sample.ssl Sample.k1)
          Sample.k2)
  /\ Credentials.combineCallCredentials Credentials.composeCall
       [Sample.k1; Sample.k2]
     = Some (Credentials.ComposedCall Sample.k1 Sample.k2)
  /\ Credentials.channel_compose Sample.ssl
       (Credentials.ComposedCall Sample.k1 Sample.k2)
     = Ok (Credentials.Composite Sample.ssl
             (Credentials.ComposedCall Sample.k1 Sample.k2))
  /\ Credentials.composeChannel (Some Sample.ssl)
       (Credentials.combineCallCredentials Credentials.composeCall
          [Sample.k1; Sample.k2])
     = Ok (Credentials.Composite Sample.ssl
             (Credentials.ComposedCall Sample.k1 Sample.k2))
  /\ Credentials.Composite (Credentials.Composite Sample.ssl Sample.k1) Sample.k2
     <> Credentials.Composite Sample.ssl
          (Credentials.ComposedCall Sample.k1 Sample.k2).
Proof.
  split; [reflexivity|]. split; [reflexivity|]. split; [reflexivity|].
  split; [reflexivity|]. discriminate.
Qed.

(** ** Completion of the unary and client-streaming receive batches *)

Lemma is_OK_true c : is_OK c = true <-> c = OK.
Proof. unfold is_OK. apply bool_decide_eq_true. Qed.

Lemma is_OK_false c : is_OK c = false <-> c <> OK.
Proof. unfold is_OK. apply bool_decide_eq_false. Qed.

(** What the two completion functions do with a response, for every batch
    error and every deserializer:
    - a status other than OK surfaces as an error whose message is the
      status details, whose code is the status code and whose metadata is the
      trailing metadata;
    - status OK, no batch error and a message that deserialises hands the
      deserialised response to the callback;
    - status OK, no batch error and a deserialiser that throws surfaces an
      error with code INTERNAL and no metadata whose message is the details
      of the received status, and the status then emitted is INTERNAL with
      details "Failed to parse server response". *)
Lemma single_response_completion_cases :
  forall (V : Type) (deserialize : option Buffer -> Js V)
         (err : option JsError.t) (response : Event.t),
    let status := Client.response_status response in
    let trailing :=
      Metadata._fromCoreRepresentation (Event.trailing (Event.status response)) in
    let initial := Metadata._fromCoreRepresentation (Event.metadata response) in
    let parse_failure :=
      Status.mk INTERNAL "Failed to parse server response" None in
    (Status.code status <> OK ->
       let error := JsError.mk "Error" (Status.details status)
                                (Some (Status.code status))
                               (Some trailing) in
       Client.unary_completion deserialize err (Some response)
       = Ok [Client.callback (Some error) None; Client.emit_status status;
             Client.emit_metadata initial]
       /\ Client.client_stream_completion deserialize err (Some response)
          = Ok [Client.callback (Some error) None; Client.emit_status status])
    /\ (forall deserialized,
          Status.code status = OK -> err = None ->
          deserialize (Event.read response) = Ok deserialized ->
          Client.unary_completion deserialize err (Some response)
          = Ok [Client.callback None (Some deserialized); Client.emit_status status;
                Client.emit_metadata initial]
          /\ Client.client_stream_completion deserialize err (Some response)
             = Ok [Client.callback None (Some deserialized);
                   Client.emit_status status])
    /\ (forall thrown,
          Status.code status = OK -> err = None ->
          deserialize (Event.read response) = Err thrown ->
          let error := JsError.mk "Error" (Status.details status)
                                  (Some INTERNAL) None in
          Client.unary_completion deserialize err (Some response)
          = Ok [Client.callback (Some error) None;
                Client.emit_status parse_failure; Client.emit_metadata initial]
          /\ Client.client_stream_completion deserialize err (Some response)
             = Ok [Client.callback (Some error) None;
                   Client.emit_status parse_failure]).
Proof.
  intros V deserialize err response. cbv zeta.
  unfold Client.unary_completion, Client.client_stream_completion. cbv zeta.
  repeat apply conj.
  - intros Hcode. apply is_OK_false in Hcode. simpl in Hcode |- *.
    rewrite Hcode. simpl. rewrite Hcode. simpl. split; reflexivity.
  - intros deserialized Hcode -> Hparse. apply is_OK_true in Hcode.
    simpl in Hcode |- *.
    rewrite Hcode, Hparse. simpl. rewrite Hcode. simpl. split; reflexivity.
  - intros thrown Hcode -> Hparse. apply is_OK_true in Hcode.
    simpl in Hcode |- *.
    rewrite Hcode, Hparse. simpl. split; reflexivity.
Qed.

(** A completion that carries no response makes both completion functions
    throw at their first statement, whatever the batch error: the callback
    is not called and nothing is emitted. *)
Lemma single_response_completion_without_response :
  forall (V : Type) (deserialize : option Buffer -> Js V) (err : option JsError.t),
    Client.unary_completion deserialize err None
    = Err (Client.undefined_response "status")
    /\ Client.client_stream_completion deserialize err None
       = Err (Client.undefined_response "status").
Proof. intros V deserialize err. split; reflexivity. Qed.

(** C1 at a batch that completes without a batch error, with status OK
    (whose details are the empty string) and a message that the deserialiser
    rejects: the error handed to the callback has code INTERNAL, but its
    message is the details of the received OK status, the empty string, and
    not "Failed to parse server response"; only the status emitted afterwards
    carries those details.  The unary driver and the receive batch of the
    client-streaming driver agree on this. *)
Theorem parse_failure_error_message :
  Sample.parse_fail (Event.read Sample.response_ok)
  = Err (JsError.Error "Illegal buffer")
  /\ Event.code (Event.status Sample.response_ok) = OK
  /\ Client.unary_completion Sample.parse_fail None (Some Sample.response_ok)
     = Ok [Client.callback (Some (JsError.mk "Error" "" (Some INTERNAL) None)) None;
           Client.emit_status
             (Status.mk INTERNAL "Failed to parse server response" None);
           Client.emit_metadata []]
  /\ Client.client_stream_completion Sample.parse_fail None
       (Some Sample.response_ok)
     = Ok [Client.callback (Some (JsError.mk "Error" "" (Some INTERNAL) None)) None;
           Client.emit_status
             (Status.mk INTERNAL "Failed to parse server response" None)].
Proof. repeat split. Qed.

(** ** The write path *)

(** C5: whenever [_write] has started its [SEND_MESSAGE] batch and the batch
    fails, the completion function returns without any effect: the write
    callback is not invoked and no error is emitted or thrown.  (On success
    the write callback is invoked, once.) *)
Theorem write_failure_is_silent :
  forall (Chunk V : Type) (self_serialize : Chunk -> Js (option Buffer))
         (chunk : Chunk) (encoding : Client.Encoding)
         (batch : Client.Batch)
         (on_complete : option JsError.t -> Event.t -> list (Client.Effect V)),
    Client._write self_serialize chunk encoding = Ok (batch, on_complete) ->
    (forall err event, on_complete (Some err) event = [])
    /\ (forall event, on_complete None event = [Client.write_callback])
    /\ (exists message,
          batch = {| Client.SEND_INITIAL_METADATA := None;
                     Client.SEND_MESSAGE := Some message;
                     Client.SEND_CLOSE_FROM_CLIENT := false;
                     Client.RECV_INITIAL_METADATA := false;
                     Client.RECV_MESSAGE := false;
                     Client.RECV_STATUS_ON_CLIENT := false |}).
Proof.
  intros Chunk V self_serialize chunk encoding batch on_complete.
  unfold Client._write.
  destruct (self_serialize chunk) as [message|e]; simpl; [|discriminate].
  destruct encoding as [n|]; [destruct message as [b|]|]; simpl;
    try discriminate; intros [= <- <-]; repeat split; eauto.
Qed.

(** A write of two bytes with numeric flags: the batch is started, and its
    failure is dropped. *)
Lemma write_failure_is_silent_witness :
  Client._write Sample.serialize_chunk (Some [x01; x02]) (Client.FiniteNumber 2)
  = Ok (Sample.write_batch, Sample.write_completion)
  /\ (forall err event, Sample.write_completion (Some err) event = []).
Proof.
  split; [reflexivity|].
  apply (proj1 (write_failure_is_silent (option Buffer) nat Sample.serialize_chunk
                  (Some [x01; x02]) (Client.FiniteNumber 2)
                  Sample.write_batch Sample.write_completion eq_refl)).
Defined.

(** ** Call creation *)

Lemma getCall_deadline_eq channel method options :
  Call.deadline (Client.getCall channel method options)
  = default CallOptions.Infinity (options ≫= CallOptions.deadline).
Proof.
  unfold Client.getCall.
  destruct options as [o|]; simpl.
  - destruct (CallOptions.credentials o); simpl;
      destruct (CallOptions.deadline o); reflexivity.
  - reflexivity.
Qed.

(** C9: a call created without options, or with options that hold no
    deadline entry, has deadline +oo; a deadline the caller supplies is the
    call's deadline, unchanged. *)
Theorem getCall_deadline :
  forall (channel : Channel.t) (method : string),
    Call.deadline (Client.getCall channel method None) = CallOptions.Infinity
    /\ (forall o, CallOptions.deadline o = None ->
                  Call.deadline (Client.getCall channel method (Some o))
                  = CallOptions.Infinity)
    /\ (forall o d, CallOptions.deadline o = Some d ->
                    Call.deadline (Client.getCall channel method (Some o)) = d).
Proof.
  intros channel method. repeat split.
  - intros o Ho. rewrite getCall_deadline_eq. simpl. rewrite Ho. reflexivity.
  - intros o d Ho. rewrite getCall_deadline_eq. simpl. rewrite Ho. reflexivity.
Qed.

(** Options without a deadline give +oo; a numeric deadline of 1500 ms is
    passed through. *)
Lemma getCall_deadline_witness :
  Call.deadline (Client.getCall Sample.channel "/grpc.testing.TestService/UnaryCall"
                   (Some (Sample.with_deadline None)))
  = CallOptions.Infinity
  /\ Call.deadline (Client.getCall Sample.channel "/grpc.testing.TestService/UnaryCall"
                      (Some (Sample.with_deadline (Some (CallOptions.Timestamp 1500)))))
     = CallOptions.Timestamp 1500.
Proof.
  pose proof (getCall_deadline Sample.channel "/grpc.testing.TestService/UnaryCall")
    as (_ & Hnone & Hsome).
  split; [apply Hnone | apply Hsome]; reflexivity.
Defined.

(** ** The caller's metadata object *)

Lemma alloc_fresh m (h : gmap Client.loc Metadata.t) :
  h !! (Client.alloc m h).2 = None
  /\ (Client.alloc m h).1 = <[(Client.alloc m h).2 := m]> h.
Proof.
  unfold Client.alloc. simpl. split; [|reflexivity].
  apply not_elem_of_dom. apply is_fresh.
Qed.

Lemma own_metadata_fresh md (h : gmap Client.loc Metadata.t) :
  let content :=
    match md with
    | Some l => Client.read_metadata h l
    | None => Metadata.empty
    end in
  h !! (Client.own_metadata md h).2 = None
  /\ (Client.own_metadata md h).1 = <[(Client.own_metadata md h).2 := content]> h.
Proof.
  destruct md as [l|]; simpl; apply alloc_fresh.
Qed.

Lemma own_metadata_frame md (h : gmap Client.loc Metadata.t) l0 m0 :
  h !! l0 = Some m0 -> (Client.own_metadata md h).1 !! l0 = Some m0.
Proof.
  intros H0. destruct (own_metadata_fresh md h) as [Hfresh ->].
  rewrite lookup_insert_ne; [exact H0|].
  intros <-. rewrite Hfresh in H0. discriminate.
Qed.

Lemma own_metadata_read md (h : gmap Client.loc Metadata.t) :
  Client.read_metadata (Client.own_metadata md h).1 (Client.own_metadata md h).2
  = match md with
    | Some l => Client.read_metadata h l
    | None => Metadata.empty
    end.
Proof.
  destruct (own_metadata_fresh md h) as [_ Heq].
  unfold Client.read_metadata at 1. rewrite Heq, lookup_insert_eq. reflexivity.
Qed.

Ltac unfold_drivers :=
  unfold Client.makeUnaryRequest, Client.makeServerStreamRequest,
    Client.makeClientStreamRequest, Client.makeBidiStreamRequest.

(** The case analysis on [serialize(argument)] and on the presence of
    options that the unary and server-streaming drivers make. *)
Ltac destruct_serialize serialize argument options :=
  try (destruct (serialize argument) as [[?|]|?]; simpl;
       destruct options; simpl).

Lemma requester_makers_store {Arg V : Type} t method serialize
    (deserialize : option Buffer -> Js V) channel (argument : Arg) md options h :
  (Client.requester_makers t method serialize deserialize channel argument
     md options h).1
  = (Client.own_metadata md h).1.
Proof.
  destruct t; simpl; unfold_drivers;
    destruct (Client.own_metadata md h) as [h' l']; simpl;
    try (destruct (serialize argument) as [[message|]|e]; simpl;
         destruct options; simpl); reflexivity.
Qed.

Lemma requester_makers_started {Arg V : Type} t method serialize
    (deserialize : option Buffer -> Js V) channel (argument : Arg) md options h s :
  (Client.requester_makers t method serialize deserialize channel argument
     md options h).2 = Ok s ->
  Client.metadata s = (Client.own_metadata md h).2
  /\ exists batch handler rest,
      Client.batches s = (batch, handler) :: rest
      /\ Client.SEND_INITIAL_METADATA batch
         = Some (Metadata._getCoreRepresentation
                   (Client.read_metadata (Client.own_metadata md h).1
                      (Client.own_metadata md h).2)).
Proof.
  destruct t; simpl; unfold_drivers;
    destruct (Client.own_metadata md h) as [h' l']; simpl;
    try (destruct (serialize argument) as [[message|]|e]; simpl;
         destruct options; simpl);
    try discriminate; intros [= <-]; simpl;
    (split; [reflexivity | eexists _, _, _; split; reflexivity]).
Qed.

(** C10: for each of the four request shapes, a caller-supplied metadata
    object is left as it was: the store after the call holds the same
    entries at the caller's object (and at every other object that existed),
    whether the driver returns or throws; the object the driver holds is a
    new one with the caller's entries, and these entries are what the first
    batch sends as initial metadata.  When the caller supplies none, the
    driver holds a new, empty object. *)
Theorem drivers_do_not_mutate_metadata :
  forall (Arg V : Type) (t : Client.method_type) (method : string)
         (serialize : Arg -> Js (option Buffer)) (deserialize : option Buffer -> Js V)
         (channel : Channel.t) (argument : Arg) (options : option CallOptions.t)
         (h : gmap Client.loc Metadata.t),
    (forall (l : Client.loc) (m : Metadata.t),
        h !! l = Some m ->
        let r := Client.requester_makers t method serialize deserialize channel
                   argument (Some l) options h in
        r.1 !! l = Some m
        /\ (forall l0 m0, h !! l0 = Some m0 -> r.1 !! l0 = Some m0)
        /\ (forall s, r.2 = Ok s ->
              Client.metadata s <> l
              /\ h !! Client.metadata s = None
              /\ r.1 !! Client.metadata s = Some m
              /\ exists batch handler rest,
                  Client.batches s = (batch, handler) :: rest
                  /\ Client.SEND_INITIAL_METADATA batch
                     = Some (Metadata._getCoreRepresentation m)))
    /\ (let r := Client.requester_makers t method serialize deserialize channel
                   argument None options h in
        (forall l0 m0, h !! l0 = Some m0 -> r.1 !! l0 = Some m0)
        /\ (forall s, r.2 = Ok s ->
              h !! Client.metadata s = None
              /\ r.1 !! Client.metadata s = Some Metadata.empty
              /\ exists batch handler rest,
                  Client.batches s = (batch, handler) :: rest
                  /\ Client.SEND_INITIAL_METADATA batch
                     = Some (Metadata._getCoreRepresentation Metadata.empty))).
Proof.
  intros Arg V t method serialize deserialize channel argument options h.
  split.
  - intros l m Hl r. subst r. rewrite requester_makers_store.
    assert (Hread : Client.read_metadata h l = m)
      by (unfold Client.read_metadata; rewrite Hl; reflexivity).
    split; [apply own_metadata_frame; exact Hl|].
    split; [intros l0 m0; apply own_metadata_frame|].
    intros s Hs. apply requester_makers_started in Hs as (-> & Hbatch).
    rewrite own_metadata_read, Hread in Hbatch.
    destruct (own_metadata_fresh (Some l) h) as [Hfresh Heq].
    repeat split; [| exact Hfresh | | exact Hbatch].
    + intros Heql. rewrite Heql, Hl in Hfresh. discriminate.
    + rewrite Heq at 1. rewrite lookup_insert_eq. simpl. rewrite Hread. reflexivity.
  - intros r. subst r. rewrite requester_makers_store.
    split; [intros l0 m0; apply own_metadata_frame|].
    intros s Hs. apply requester_makers_started in Hs as (-> & Hbatch).
    rewrite own_metadata_read in Hbatch.
    destruct (own_metadata_fresh None h) as [Hfresh Heq].
    repeat split; [exact Hfresh | | exact Hbatch].
    rewrite Heq at 1. rewrite lookup_insert_eq. reflexivity.
Qed.

(** A unary call with the caller's metadata object at location 0: after the
    call the object still holds the caller's entries. *)
Lemma drivers_do_not_mutate_metadata_witness :
  (Client.requester_makers Client.unary "/grpc.testing.TestService/UnaryCall"
     Sample.serialize Sample.parse Sample.channel [x01] (Some 0%nat) None
     Sample.store).1 !! 0%nat
  = Some Sample.caller_metadata.
Proof.
  assert (H0 : Sample.store !! 0%nat = Some Sample.caller_metadata)
    by reflexivity.
  exact (proj1 (proj1 (drivers_do_not_mutate_metadata Buffer nat Client.unary
                         "/grpc.testing.TestService/UnaryCall"
                         Sample.serialize Sample.parse Sample.channel [x01] None
                         Sample.store)
                  0%nat Sample.caller_metadata H0)).
Defined.

(** ** The client factory *)

Section FactoryFacts.

Context {Arg V : Type}.

Let reserved : JsError.t := JsError.Error "Method names cannot start with $".

Let define (prototype : gmap string (Client.Requester Arg V))
    (entry : string * Client.MethodAttrs Arg V) :=
  <[entry.1 := Client.make_requester entry.2]> prototype.

Lemma each_method_reserved (entries : list (string * Client.MethodAttrs Arg V)) :
  forall prototype,
    Exists (fun entry => Client.startsWith entry.1 "$" = true) entries ->
    Client.each_method entries prototype = Err reserved.
Proof.
  induction entries as [|[name attrs] rest IH]; intros prototype Hex.
  - inversion Hex.
  - cbn [Client.each_method].
    destruct (Client.startsWith name "$") eqn:Hname; [reflexivity|].
    apply IH. inversion Hex as [? ? Hhead|? ? Htail]; subst; [|exact Htail].
    simpl in Hhead. congruence.
Qed.

Lemma each_method_defines (entries : list (string * Client.MethodAttrs Arg V)) :
  forall prototype,
    Forall (fun entry => Client.startsWith entry.1 "$" = false) entries ->
    Client.each_method entries prototype = Ok (foldl define prototype entries).
Proof.
  induction entries as [|[name attrs] rest IH]; intros prototype Hall.
  - reflexivity.
  - inversion Hall as [|? ? Hhead Htail]; subst. simpl in Hhead.
    cbn [Client.each_method]. rewrite Hhead. rewrite (IH _ Htail). reflexivity.
Qed.

Lemma lookup_foldl_define (entries : list (string * Client.MethodAttrs Arg V)) :
  forall prototype name,
    NoDup entries.*1 ->
    foldl define prototype entries !! name
    = match (list_to_map entries : gmap string (Client.MethodAttrs Arg V)) !! name with
      | Some attrs => Some (Client.make_requester attrs)
      | None => prototype !! name
      end.
Proof.
  induction entries as [|[n a] rest IH]; intros prototype name Hnodup.
  - simpl. rewrite lookup_empty. reflexivity.
  - simpl in Hnodup. apply NoDup_cons in Hnodup as [Hn Hrest].
    simpl. rewrite (IH _ _ Hrest). unfold define. simpl.
    destruct (decide (n = name)) as [->|Hne].
    + rewrite (not_elem_of_list_to_map_1 _ _ Hn), !lookup_insert_eq. reflexivity.
    + rewrite !(lookup_insert_ne _ n name) by exact Hne. reflexivity.
Qed.

Lemma makeClientConstructor_defines
    (methods : gmap string (Client.MethodAttrs Arg V)) serviceName :
  (forall name attrs, methods !! name = Some attrs ->
                      Client.startsWith name "$" = false) ->
  Client.makeClientConstructor methods serviceName
  = Ok (Client.make_requester <$> methods).
Proof.
  intros Hnames. unfold Client.makeClientConstructor.
  rewrite each_method_defines.
  - f_equal. apply map_eq. intros name.
    rewrite lookup_foldl_define by apply NoDup_fst_map_to_list.
    rewrite list_to_map_to_list, lookup_fmap, lookup_empty.
    destruct (methods !! name); reflexivity.
  - apply Forall_forall. intros [name attrs] Hin.
    apply elem_of_map_to_list in Hin. simpl. eauto.
Qed.

End FactoryFacts.

(** C4: when some method name starts with [$], the client constructor
    factory throws the error "Method names cannot start with $" and no
    constructor is built; when none does, the factory returns a constructor
    whose prototype holds, under every name of the methods object, the request
    function made from that entry's attributes (and nothing else). *)
Theorem makeClientConstructor_reserved_prefix :
  forall (Arg V : Type) (methods : gmap string (Client.MethodAttrs Arg V))
         (serviceName : string),
    ((exists name attrs,
         methods !! name = Some attrs /\ Client.startsWith name "$" = true) ->
     Client.makeClientConstructor methods serviceName
     = Err (JsError.Error "Method names cannot start with $"))
    /\ ((forall name attrs,
            methods !! name = Some attrs -> Client.startsWith name "$" = false) ->
        exists prototype,
          Client.makeClientConstructor methods serviceName = Ok prototype
          /\ forall name,
              prototype !! name = Client.make_requester <$> methods !! name).
Proof.
  intros Arg V methods serviceName. split.
  - intros (name & attrs & Hlookup & Hname).
    unfold Client.makeClientConstructor. apply each_method_reserved.
    apply Exists_exists. exists (name, attrs). split; [|exact Hname].
    apply elem_of_map_to_list. exact Hlookup.
  - intros Hnames. exists (Client.make_requester <$> methods). split.
    + apply makeClientConstructor_defines. exact Hnames.
    + intros name. apply lookup_fmap.
Qed.

(** A methods object with the entry [$foo] is rejected. *)
Lemma makeClientConstructor_reserved_prefix_witness :
  Client.makeClientConstructor Sample.reserved_methods "grpc.testing.TestService"
  = Err (JsError.Error "Method names cannot start with $").
Proof.
  apply (proj1 (makeClientConstructor_reserved_prefix Buffer nat
                  Sample.reserved_methods "grpc.testing.TestService")).
  exists "$foo", (Sample.attrs false false). split; reflexivity.
Defined.

(** ** The user agent option *)

Lemma Client_options_user_agent version options :
  Client.Client_options version options !! "grpc.primary_user_agent"
  = Some (Channel.JsString ("grpc-node/" +:+ version)).
Proof. unfold Client.Client_options. apply lookup_insert_eq. Qed.

Lemma Client_options_other version options k :
  k <> "grpc.primary_user_agent" ->
  Client.Client_options version options !! k = default ∅ options !! k.
Proof.
  intros Hk. unfold Client.Client_options.
  rewrite lookup_insert_ne by congruence. destruct options; reflexivity.
Qed.

Lemma Channel_New_args host creds args_hash channel :
  Channel.New host creds (Some args_hash) = Ok channel ->
  Channel.args channel = Some (omap Channel.to_arg args_hash).
Proof.
  unfold Channel.New. case_bool_decide; [|discriminate].
  intros [= <-]. reflexivity.
Qed.

(** C6, as the code has it: the constructor sets [grpc.primary_user_agent]
    to "grpc-node/" followed by the library version whatever the caller
    passed under that key, and leaves every other option as the caller gave
    it; the channel is built with exactly that user agent.  The constructor
    succeeds whenever the caller's other options are int32s or strings. *)
Theorem Client_user_agent :
  forall (version address : string) (credentials : Credentials.ChannelCredentials)
         (options : option (gmap string Channel.JsValue)),
    Client.Client_options version options !! "grpc.primary_user_agent"
    = Some (Channel.JsString ("grpc-node/" +:+ version))
    /\ (forall k, k <> "grpc.primary_user_agent" ->
          Client.Client_options version options !! k = default ∅ options !! k)
    /\ (forall channel,
          Client.Client version address credentials options = Ok channel ->
          exists args,
            Channel.args channel = Some args
            /\ args !! "grpc.primary_user_agent"
               = Some (Channel.GRPC_ARG_STRING ("grpc-node/" +:+ version))
            /\ forall k, k <> "grpc.primary_user_agent" ->
                 args !! k = default ∅ options !! k ≫= Channel.to_arg)
    /\ (map_Forall (fun k v => k <> "grpc.primary_user_agent" ->
                               is_Some (Channel.to_arg v)) (default ∅ options) ->
        exists channel,
          Client.Client version address credentials options = Ok channel).
Proof.
  intros version address credentials options.
  split; [apply Client_options_user_agent|].
  split; [intros k; apply Client_options_other|].
  split.
  - intros channel Hnew. unfold Client.Client in Hnew.
    apply Channel_New_args in Hnew.
    eexists. split; [exact Hnew|]. split.
    + rewrite lookup_omap, Client_options_user_agent. reflexivity.
    + intros k Hk. rewrite lookup_omap, Client_options_other by exact Hk.
      reflexivity.
  - intros Hothers. unfold Client.Client, Channel.New.
    rewrite bool_decide_eq_true_2; [eauto|].
    intros k v Hkv.
    destruct (decide (k = "grpc.primary_user_agent")) as [->|Hk].
    + rewrite Client_options_user_agent in Hkv. injection Hkv as <-.
      simpl. eauto.
    + rewrite Client_options_other in Hkv by exact Hk.
      apply (Hothers k v Hkv Hk).
Qed.

(** With the caller's own user agent in the options, the constructor
    succeeds. *)
Lemma Client_user_agent_witness :
  exists channel,
    Client.Client "0.13.0" "localhost:50051" Sample.ssl
      (Some Sample.user_agent_options) = Ok channel.
Proof.
  apply (proj2 (proj2 (proj2
           (Client_user_agent "0.13.0" "localhost:50051" Sample.ssl
              (Some Sample.user_agent_options))))).
  simpl. unfold Sample.user_agent_options.
  apply map_Forall_singleton. intros Hk. contradiction Hk. reflexivity.
Defined.

(** C6 fails as stated: a caller who passes the user agent "my-app/1.0"
    gets a channel whose user agent is "grpc-node/0.13.0" alone; the caller's
    value is neither a prefix of it nor kept anywhere in the channel
    arguments. *)
Lemma caller_user_agent_is_replaced :
  Sample.user_agent_options !! "grpc.primary_user_agent"
  = Some (Channel.JsString "my-app/1.0")
  /\ Client.Client_options "0.13.0" (Some Sample.user_agent_options)
     = {[ "grpc.primary_user_agent" := Channel.JsString "grpc-node/0.13.0" ]}
  /\ Client.Client "0.13.0" "localhost:50051" Sample.ssl
       (Some Sample.user_agent_options)
     = Ok (Channel.mk "localhost:50051" Sample.ssl
             (Some {[ "grpc.primary_user_agent"
                      := Channel.GRPC_ARG_STRING "grpc-node/0.13.0" ]}))
  /\ String.prefix "my-app/1.0" "grpc-node/0.13.0" = false.
Proof.
  assert (Hopts : Client.Client_options "0.13.0" (Some Sample.user_agent_options)
                  = {[ "grpc.primary_user_agent"
                       := Channel.JsString "grpc-node/0.13.0" ]}).
  { unfold Client.Client_options, Sample.user_agent_options.
    apply insert_singleton_eq. }
  split; [reflexivity|]. split; [exact Hopts|]. split; [|reflexivity].
  unfold Client.Client. rewrite Hopts. unfold Channel.New.
  rewrite bool_decide_eq_true_2.
  - rewrite omap_singleton_Some with (y := Channel.GRPC_ARG_STRING "grpc-node/0.13.0");
      reflexivity.
  - apply map_Forall_singleton. simpl. eauto.
Qed.

(** ** The reference test service *)

Lemma streamingInput_loop_sum
    (inbound : list (InteropServer.Request * InteropServer.Payload)) :
  forall aggregate_size,
    InteropServer.streamingInput_loop aggregate_size
      (List.map (fun vp => InteropServer.set_payload vp.1 vp.2) inbound)
    = Ok (aggregate_size
          + fold_right N.add 0%N
              (List.map (fun vp => N.of_nat (length (InteropServer.body vp.2)))
                        inbound))%N.
Proof.
  induction inbound as [|[value p] rest IH]; intros aggregate_size; simpl.
  - rewrite N.add_0_r. reflexivity.
  - rewrite IH. f_equal. lia.
Qed.

(** C7: on any finite sequence of inbound messages that carry payloads, the
    [streamingInputCall] handler answers (after the header echo) with
    [aggregated_payload_size] equal to the sum of the byte lengths of the
    payload bodies, which is 0 for the empty sequence. *)
Theorem streamingInputCall_aggregates :
  forall (call : InteropServer.Call)
         (inbound : list (InteropServer.Request * InteropServer.Payload)),
    InteropServer.serve
      (InteropServer.streamingInputCall call
         (List.map (fun vp => InteropServer.set_payload vp.1 vp.2) inbound))
    = (InteropServer.echoHeader call ++
       [InteropServer.callback
          (InteropServer.Aggregated
             (fold_right N.add 0%N
                (List.map (fun vp => N.of_nat (length (InteropServer.body vp.2)))
                          inbound)))
          (InteropServer.getEchoTrailer call)],
       Ok tt).
Proof.
  intros call inbound. simpl. unfold InteropServer.handleStreamingInput.
  rewrite streamingInput_loop_sum. rewrite N.add_0_l. reflexivity.
Qed.

Lemma zeroBuffer_length size :
  N.of_nat (length (InteropServer.zeroBuffer size)) = size.
Proof.
  unfold InteropServer.zeroBuffer. rewrite repeat_length. apply N2Nat.id.
Qed.

(** The [client_streaming] interop case: zero-filled payloads of 27182, 8,
    1828 and 45904 bytes aggregate to 74922. *)
Example client_streaming_74922 :
  InteropServer.serve
    (InteropServer.streamingInputCall Sample.echo_call
       (List.map (fun vp => InteropServer.set_payload vp.1 vp.2)
          (List.map (fun n => (Sample.request,
                               InteropServer.mkPayload None (InteropServer.zeroBuffer n)))
                    [27182; 8; 1828; 45904]%N)))
  = (InteropServer.echoHeader Sample.echo_call ++
     [InteropServer.callback (InteropServer.Aggregated 74922)
        (InteropServer.getEchoTrailer Sample.echo_call)], Ok tt).
Proof.
  cbn [InteropServer.serve]. unfold InteropServer.handleStreamingInput.
  rewrite streamingInput_loop_sum.
  cbn [List.map fold_right fst snd InteropServer.body].
  rewrite !zeroBuffer_length. reflexivity.
Qed.

(** *** The metadata echo *)

Lemma write_each_plain payload_type response_parameters :
  Forall InteropServer.plain (InteropServer.write_each payload_type response_parameters).
Proof.
  unfold InteropServer.write_each.
  induction response_parameters as [|p ps IH]; simpl; constructor;
    [split; reflexivity | exact IH].
Qed.

Lemma fullDuplex_plain (inbound : list (InteropServer.Request * bool)) :
  Forall InteropServer.plain
    (List.concat
       (List.map (fun vc => InteropServer.fullDuplex_data vc.1 vc.2) inbound)).
Proof.
  induction inbound as [|[value coin] rest IH]; simpl; [constructor|].
  apply Forall_app. split; [apply write_each_plain | exact IH].
Qed.

Lemma streamingInput_loop_throws inbound :
  forall aggregate_size e,
    InteropServer.streamingInput_loop aggregate_size inbound = Err e ->
    Exists (fun value => InteropServer.payload value = None) inbound.
Proof.
  induction inbound as [|value rest IH]; intros aggregate_size e; simpl.
  - discriminate.
  - unfold InteropServer.streamingInput_data.
    destruct (InteropServer.payload value) as [p|] eqn:Hp; simpl.
    + intros Hrest. apply Exists_cons_tl. exact (IH _ _ Hrest).
    + intros _. apply Exists_cons_hd. exact Hp.
Qed.

(** Every implemented handler echoes the header first, then writes, and
    ends with one action that hands over the echo trailer; the only run that
    stops before is a [streamingInputCall] that meets a message without
    payload. *)
Lemma serve_shape i :
  InteropServer.implemented i = true ->
  (exists body final,
      InteropServer.serve i
      = (InteropServer.echoHeader (InteropServer.call_of i) ++ body ++ [final], Ok tt)
      /\ Forall InteropServer.plain body
      /\ InteropServer.is_sendMetadata final = false
      /\ InteropServer.trailer_of final
         = Some (InteropServer.getEchoTrailer (InteropServer.call_of i)))
  \/ (exists e call inbound,
         i = InteropServer.streamingInputCall call inbound
         /\ InteropServer.serve i = (InteropServer.echoHeader call, Err e)
         /\ Exists (fun value => InteropServer.payload value = None) inbound).
Proof.
  destruct i as [call|call coin|call coin|call inbound|call inbound|call];
    simpl; intros Himpl; try discriminate.
  - left. exists [], (InteropServer.callback InteropServer.Empty
                        (InteropServer.getEchoTrailer call)).
    repeat split. constructor.
  - left. eexists [], _. unfold InteropServer.handleUnary. simpl.
    repeat split. constructor.
  - left. eexists _, _. unfold InteropServer.handleStreamingOutput.
    split; [reflexivity|]. split; [apply write_each_plain|]. split; reflexivity.
  - unfold InteropServer.handleStreamingInput.
    destruct (InteropServer.streamingInput_loop 0 inbound) as [total|e] eqn:Hloop.
    + left. eexists [], _. simpl. repeat split. constructor.
    + right. exists e, call, inbound. repeat split.
      exact (streamingInput_loop_throws _ _ _ Hloop).
  - left. eexists _, _. unfold InteropServer.handleFullDuplex.
    split; [reflexivity|]. split; [apply fullDuplex_plain|]. split; reflexivity.
Qed.

Lemma plain_no_sendMetadata l :
  Forall InteropServer.plain l ->
  Forall (fun a => InteropServer.is_sendMetadata a = false) l.
Proof. intros H. eapply Forall_impl; [exact H|]. intros a [Ha _]. exact Ha. Qed.

Lemma plain_no_trailer l :
  Forall InteropServer.plain l -> Forall (fun a => InteropServer.trailer_of a = None) l.
Proof. intros H. eapply Forall_impl; [exact H|]. intros a [_ Ha]. exact Ha. Qed.

Lemma echoHeader_cases call :
  match Metadata.get (InteropServer.metadata call) InteropServer.ECHO_INITIAL_KEY with
  | value :: _ =>
      InteropServer.echoHeader call
      = [InteropServer.sendMetadata
           (Metadata.set Metadata.empty InteropServer.ECHO_INITIAL_KEY value)]
  | [] => InteropServer.echoHeader call = []
  end.
Proof.
  unfold InteropServer.echoHeader.
  destruct (Metadata.get (InteropServer.metadata call) InteropServer.ECHO_INITIAL_KEY);
    reflexivity.
Qed.

Lemma echoHeader_no_trailer call :
  Forall (fun a => InteropServer.trailer_of a = None) (InteropServer.echoHeader call).
Proof.
  pose proof (echoHeader_cases call) as H.
  destruct (Metadata.get (InteropServer.metadata call) InteropServer.ECHO_INITIAL_KEY);
    rewrite H; repeat constructor.
Qed.

Lemma getEchoTrailer_get call :
  Metadata.get (InteropServer.getEchoTrailer call) InteropServer.ECHO_TRAILING_KEY
  = match Metadata.get (InteropServer.metadata call) InteropServer.ECHO_TRAILING_KEY with
    | value :: _ => [value]
    | [] => []
    end.
Proof.
  unfold InteropServer.getEchoTrailer.
  destruct (Metadata.get (InteropServer.metadata call) InteropServer.ECHO_TRAILING_KEY).
  - reflexivity.
  - apply get_set_same.
Qed.

(** C8, as the code has it.  For every inbound call to an implemented method
    (every method but [halfDuplexCall]):
    - if the call's initial metadata holds values under
      [x-grpc-test-echo-initial], the handler's first action, before any
      message, is to send initial response metadata that holds that key with
      the first of these values, and it sends no other initial metadata; if
      the key is absent it sends no initial metadata at all;
    - when the handler completes, its last action, and no earlier one, hands
      over the trailing metadata, which holds
      [x-grpc-test-echo-trailing-bin] with the first value received under
      that key, and is empty when the key is absent;
    - the only handler run that does not complete is a [streamingInputCall]
      that receives a message without payload. *)
Theorem echo_convention :
  forall (i : InteropServer.Inbound),
    InteropServer.implemented i = true ->
    let call := InteropServer.call_of i in
    let run := InteropServer.serve i in
    match Metadata.get (InteropServer.metadata call) InteropServer.ECHO_INITIAL_KEY with
    | value :: _ =>
        exists response_metadata rest,
          run.1 = InteropServer.sendMetadata response_metadata :: rest
          /\ response_metadata
             = Metadata.set Metadata.empty InteropServer.ECHO_INITIAL_KEY value
          /\ Metadata.get response_metadata InteropServer.ECHO_INITIAL_KEY = [value]
          /\ Forall (fun a => InteropServer.is_sendMetadata a = false) rest
    | [] => Forall (fun a => InteropServer.is_sendMetadata a = false) run.1
    end
    /\ (run.2 = Ok tt ->
        exists front final trailer,
          run.1 = front ++ [final]
          /\ Forall (fun a => InteropServer.trailer_of a = None) front
          /\ InteropServer.trailer_of final = Some trailer
          /\ trailer
             = match Metadata.get (InteropServer.metadata call)
                       InteropServer.ECHO_TRAILING_KEY with
               | value :: _ =>
                   Metadata.set Metadata.empty InteropServer.ECHO_TRAILING_KEY value
               | [] => Metadata.empty
               end
          /\ Metadata.get trailer InteropServer.ECHO_TRAILING_KEY
             = match Metadata.get (InteropServer.metadata call)
                       InteropServer.ECHO_TRAILING_KEY with
               | value :: _ => [value]
               | [] => []
               end)
    /\ (forall e, run.2 = Err e ->
          exists inbound,
            i = InteropServer.streamingInputCall call inbound
            /\ Exists (fun value => InteropServer.payload value = None) inbound).
Proof.
  intros i Himpl call run. subst call run.
  pose proof (echoHeader_cases (InteropServer.call_of i)) as Hecho.
  destruct (serve_shape i Himpl)
    as [(body & final & Hrun & Hbody & Hfinal & Htrailer)
       |(e & call & inbound & -> & Hrun & Hmissing)].
  - rewrite Hrun. simpl. split; [|split].
    + destruct (Metadata.get (InteropServer.metadata (InteropServer.call_of i))
                  InteropServer.ECHO_INITIAL_KEY) as [|value values].
      * rewrite Hecho. simpl. apply Forall_app. split.
        -- apply plain_no_sendMetadata. exact Hbody.
        -- repeat constructor. exact Hfinal.
      * rewrite Hecho. simpl. eexists _, _. split; [reflexivity|].
        split; [reflexivity|]. split; [apply get_set_same|].
        apply Forall_app. split.
        -- apply plain_no_sendMetadata. exact Hbody.
        -- repeat constructor. exact Hfinal.
    + intros _.
      exists (InteropServer.echoHeader (InteropServer.call_of i) ++ body), final,
        (InteropServer.getEchoTrailer (InteropServer.call_of i)).
      split; [apply app_assoc|]. split.
      * apply Forall_app. split;
          [apply echoHeader_no_trailer | apply plain_no_trailer; exact Hbody].
      * split; [exact Htrailer|]. split; [|apply getEchoTrailer_get].
        unfold InteropServer.getEchoTrailer.
        destruct (Metadata.get (InteropServer.metadata (InteropServer.call_of i))
                    InteropServer.ECHO_TRAILING_KEY); reflexivity.
    + discriminate.
  - rewrite Hrun. simpl in Hecho |- *. split; [|split].
    + destruct (Metadata.get (InteropServer.metadata call)
                  InteropServer.ECHO_INITIAL_KEY) as [|value values].
      * rewrite Hecho. constructor.
      * rewrite Hecho. eexists _, _. split; [reflexivity|].
        split; [reflexivity|]. split; [apply get_set_same | constructor].
    + discriminate.
    + intros _ _. exists inbound. split; [reflexivity | exact Hmissing].
Qed.

(** A unary call that carries both echo keys: the handler first sends the
    initial echo, then answers with the trailing echo. *)
Lemma echo_convention_witness :
  InteropServer.serve (InteropServer.unaryCall Sample.echo_call true)
  = ([InteropServer.sendMetadata
        [("x-grpc-test-echo-initial", Metadata.Text "test_initial_metadata_value")];
      InteropServer.callback
        (InteropServer.WithPayload
           (InteropServer.mkPayload (Some InteropServer.COMPRESSABLE) [x00; x00; x00]))
        [("x-grpc-test-echo-trailing-bin", Metadata.Binary [xab; xab; xab])]],
     Ok tt)
  /\ exists response_metadata rest,
      (InteropServer.serve (InteropServer.unaryCall Sample.echo_call true)).1
      = InteropServer.sendMetadata response_metadata :: rest
      /\ response_metadata
         = Metadata.set Metadata.empty InteropServer.ECHO_INITIAL_KEY
             (Metadata.Text "test_initial_metadata_value")
      /\ Metadata.get response_metadata InteropServer.ECHO_INITIAL_KEY
         = [Metadata.Text "test_initial_metadata_value"]
      /\ Forall (fun a => InteropServer.is_sendMetadata a = false) rest.
Proof.
  split; [reflexivity|].
  exact (proj1 (echo_convention
                  (InteropServer.unaryCall Sample.echo_call true) eq_refl)).
Defined.

(** C8 fails as stated on [halfDuplexCall]: the call carries both echo keys,
    and the handler throws without sending initial metadata or handing over
    a trailer. *)
Lemma halfDuplexCall_echoes_nothing :
  Metadata.get (InteropServer.metadata Sample.echo_call) InteropServer.ECHO_INITIAL_KEY
  = [Metadata.Text "test_initial_metadata_value"]
  /\ Metadata.get (InteropServer.metadata Sample.echo_call)
       InteropServer.ECHO_TRAILING_KEY
     = [Metadata.Binary [xab; xab; xab]]
  /\ InteropServer.serve (InteropServer.halfDuplexCall Sample.echo_call)
     = ([], Err (JsError.Error "HalfDuplexCall not yet implemented")).
Proof. split; [reflexivity|]. split; reflexivity. Qed.

(** * Further properties of the code *)

(** ** The readable stream *)

Lemma started_app {V : Type} (a b : list (ReadableStream.Action V)) :
  ReadableStream.started (a ++ b)
  = ReadableStream.started a + ReadableStream.started b.
Proof.
  unfold ReadableStream.started. rewrite List.filter_app, length_app. reflexivity.
Qed.

Lemma step_accounted {V : Type} (d : option Buffer -> Js (option V)) sys i sys' actions :
  ReadableStream.step d sys i = Some (sys', actions) ->
  ReadableStream.accounted sys -> ReadableStream.accounted sys'.
Proof.
  destruct sys as [[finished reading] n]. unfold ReadableStream.accounted. simpl.
  destruct i as [|err data push_result]; simpl.
  - unfold ReadableStream._read. simpl.
    destruct finished, reading; simpl; intros [= <- <-];
      unfold ReadableStream.started; simpl; lia.
  - destruct n as [|n]; [discriminate|].
    unfold ReadableStream.readCallback. simpl.
    destruct err as [e|].
    + intros [= <- <-]. unfold ReadableStream.started. simpl.
      destruct reading, finished; simpl; intros; lia.
    + destruct (d data) as [[v|]|thrown];
        destruct (push_result && bool_decide (data <> None));
        intros [= <- <-]; unfold ReadableStream.started; simpl;
        destruct reading, finished; simpl; intros; lia.
Qed.

Lemma run_accounted {V : Type} (d : option Buffer -> Js (option V)) inputs :
  forall sys sys' actions,
    ReadableStream.run d sys inputs = Some (sys', actions) ->
    ReadableStream.accounted sys -> ReadableStream.accounted sys'.
Proof.
  induction inputs as [|i rest IH]; intros sys sys' actions; simpl.
  - intros [= <- <-]. trivial.
  - destruct (ReadableStream.step d sys i) as [[sys1 actions1]|] eqn:Hstep;
      [|discriminate].
    destruct (ReadableStream.run d sys1 rest) as [[sys2 actions2]|] eqn:Hrun;
      [|discriminate].
    intros [= <- <-] Hacc.
    eapply IH; [exact Hrun|]. eapply step_accounted; eauto.
Qed.

Lemma run_app {V : Type} (d : option Buffer -> Js (option V)) a :
  forall sys b,
    ReadableStream.run d sys (a ++ b)
    = match ReadableStream.run d sys a with
      | Some (sys', actions) =>
          match ReadableStream.run d sys' b with
          | Some (sys'', actions') => Some (sys'', actions ++ actions')
          | None => None
          end
      | None => None
      end.
Proof.
  induction a as [|i a IH]; intros sys b; simpl.
  - destruct (ReadableStream.run d sys b) as [[? ?]|]; reflexivity.
  - destruct (ReadableStream.step d sys i) as [[sys1 actions1]|]; [|reflexivity].
    rewrite IH.
    destruct (ReadableStream.run d sys1 a) as [[sys2 actions2]|]; [|reflexivity].
    destruct (ReadableStream.run d sys2 b) as [[sys3 actions3]|]; [|reflexivity].
    rewrite app_assoc. reflexivity.
Qed.

Lemma run_finished {V : Type} (d : option Buffer -> Js (option V)) inputs :
  forall sys sys' actions,
    ReadableStream.accounted sys ->
    ReadableStream.finished (ReadableStream.state sys) = true ->
    ReadableStream.run d sys inputs = Some (sys', actions) ->
    inputs = repeat ReadableStream.Read (length inputs)
    /\ actions = repeat (ReadableStream.push ReadableStream.null) (length inputs)
    /\ sys' = sys.
Proof.
  induction inputs as [|i rest IH]; intros sys sys' actions Hacc Hfin; simpl.
  - intros [= <- <-]. repeat split.
  - destruct sys as [[finished reading] n]. simpl in Hfin. subst finished.
    unfold ReadableStream.accounted in Hacc. simpl in Hacc.
    rewrite andb_false_r in Hacc. subst n.
    destruct i as [|err data push_result];
      cbn [ReadableStream.step ReadableStream.state ReadableStream.outstanding];
      [|discriminate].
    unfold ReadableStream._read, ReadableStream.started. simpl.
    destruct (ReadableStream.run d
                (ReadableStream.mkSystem (ReadableStream.mk true reading) 0) rest)
      as [[sys2 actions2]|] eqn:Hrun; [|discriminate].
    intros [= <- <-].
    assert (Hacc : ReadableStream.accounted
                     (ReadableStream.mkSystem (ReadableStream.mk true reading) 0)).
    { unfold ReadableStream.accounted. simpl. rewrite andb_false_r. reflexivity. }
    destruct (IH _ _ _ Hacc eq_refl Hrun) as (Hin & Hact & ->).
    repeat split; simpl; congruence.
Qed.

(** X1: along every sequence of [_read] calls and batch completions on a
    new stream, at most one read batch is in flight, and one is in flight
    exactly while the stream is reading and has not finished: a [_read] that
    arrives while a read is pending starts no second batch. *)
Theorem at_most_one_read_in_flight :
  forall (V : Type) (self_deserialize : option Buffer -> Js (option V))
         (inputs : list ReadableStream.Input)
         (sys : ReadableStream.System) (actions : list (ReadableStream.Action V)),
    ReadableStream.run self_deserialize ReadableStream.initial_system inputs
    = Some (sys, actions) ->
    ReadableStream.outstanding sys <= 1
    /\ (ReadableStream.outstanding sys = 1
        <-> ReadableStream.reading (ReadableStream.state sys) = true
            /\ ReadableStream.finished (ReadableStream.state sys) = false).
Proof.
  intros V d inputs sys actions Hrun.
  assert (Hacc : ReadableStream.accounted sys).
  { eapply run_accounted; [exact Hrun|]. reflexivity. }
  unfold ReadableStream.accounted in Hacc. rewrite Hacc.
  destruct (ReadableStream.reading (ReadableStream.state sys)),
    (ReadableStream.finished (ReadableStream.state sys)); simpl;
    split; try lia; split; try lia; try tauto; intros [? ?]; discriminate.
Qed.

(** Two [_read] calls, a message of one byte that the consumer accepts, and
    another [_read]: one batch is in flight at the end. *)
Lemma at_most_one_read_in_flight_witness :
  ReadableStream.run Inputs.deserialize_message ReadableStream.initial_system
    [ReadableStream.Read; ReadableStream.Read;
     ReadableStream.Complete None (Some [x01]) true; ReadableStream.Read]
  = Some (ReadableStream.mkSystem (ReadableStream.mk false true) 1,
          [ReadableStream.startBatch;
           ReadableStream.push (ReadableStream.value 1%nat);
           ReadableStream.startBatch])
  /\ ReadableStream.outstanding
       (ReadableStream.mkSystem (ReadableStream.mk false true) 1) <= 1.
Proof.
  split; [reflexivity|].
  exact (proj1 (at_most_one_read_in_flight nat Inputs.deserialize_message
                  [ReadableStream.Read; ReadableStream.Read;
                   ReadableStream.Complete None (Some [x01]) true;
                   ReadableStream.Read]
                  (ReadableStream.mkSystem (ReadableStream.mk false true) 1)
                  _ eq_refl)).
Defined.

(** X2: once a read batch has completed with an error the stream has
    finished for good: no batch completion can follow (none is in flight),
    every later [_read] only pushes [null], and no read batch is started
    again. *)
Theorem failed_read_ends_stream :
  forall (V : Type) (self_deserialize : option Buffer -> Js (option V))
         (before after : list ReadableStream.Input)
         (err : JsError.t) (data : option Buffer) (push_result : bool)
         (sys : ReadableStream.System) (actions : list (ReadableStream.Action V)),
    ReadableStream.run self_deserialize ReadableStream.initial_system
      (before ++ ReadableStream.Complete (Some err) data push_result :: after)
    = Some (sys, actions) ->
    ReadableStream.finished (ReadableStream.state sys) = true
    /\ ReadableStream.outstanding sys = 0
    /\ after = repeat ReadableStream.Read (length after)
    /\ exists earlier,
        ReadableStream.run self_deserialize ReadableStream.initial_system before
        = Some earlier
        /\ actions
           = earlier.2
             ++ repeat (ReadableStream.push ReadableStream.null) (length after).
Proof.
  intros V d before after err data push_result sys actions.
  rewrite run_app.
  destruct (ReadableStream.run d ReadableStream.initial_system before)
    as [[sys1 actions1]|] eqn:Hbefore; [|discriminate].
  assert (Hacc1 : ReadableStream.accounted sys1).
  { eapply run_accounted; [exact Hbefore|]. reflexivity. }
  cbn [ReadableStream.run].
  destruct (ReadableStream.step d sys1
              (ReadableStream.Complete (Some err) data push_result))
    as [[sys2 actions2]|] eqn:Hstep; [|discriminate].
  assert (Hacc2 : ReadableStream.accounted sys2) by (eapply step_accounted; eauto).
  assert (Hfin2 : ReadableStream.finished (ReadableStream.state sys2) = true
                  /\ actions2 = []).
  { simpl in Hstep. destruct (ReadableStream.outstanding sys1); [discriminate|].
    injection Hstep as <- <-. split; reflexivity. }
  destruct Hfin2 as [Hfin2 ->].
  destruct (ReadableStream.run d sys2 after) as [[sys3 actions3]|] eqn:Hafter;
    [|discriminate].
  intros [= <- <-].
  destruct (run_finished d after _ _ _ Hacc2 Hfin2 Hafter) as (Hin & Hact & ->).
  split; [exact Hfin2|]. split.
  - unfold ReadableStream.accounted in Hacc2. rewrite Hacc2, Hfin2, andb_false_r. reflexivity.
  - split; [exact Hin|]. exists (sys1, actions1). split; [reflexivity|].
    simpl. rewrite Hact. reflexivity.
Qed.

(** A read whose batch fails, then two more [_read] calls: each pushes
    [null]. *)
Lemma failed_read_ends_stream_witness :
  ReadableStream.run Inputs.deserialize_message ReadableStream.initial_system
    ([ReadableStream.Read]
       ++ ReadableStream.Complete (Some Sample.batch_error) None false
       :: [ReadableStream.Read; ReadableStream.Read])
  = Some (ReadableStream.mkSystem (ReadableStream.mk true true) 0,
          [ReadableStream.startBatch;
           ReadableStream.push ReadableStream.null;
           ReadableStream.push ReadableStream.null])
  /\ ReadableStream.finished (ReadableStream.mk true true) = true.
Proof.
  split; [reflexivity|].
  exact (proj1 (failed_read_ends_stream nat Inputs.deserialize_message
                  [ReadableStream.Read] [ReadableStream.Read; ReadableStream.Read]
                  Sample.batch_error None false
                  (ReadableStream.mkSystem (ReadableStream.mk true true) 0)
                  _ eq_refl)).
Defined.

(** ** The wrapped channel *)

Lemma calls_closed ms :
  (ChannelLifecycle.calls None ms).1 = None
  /\ Forall (fun k => ChannelLifecycle.uses k = Some None)
            (ChannelLifecycle.calls None ms).2
  /\ length (ChannelLifecycle.calls None ms).2
     = length (List.filter (fun m => negb (ChannelLifecycle.is_Close m)) ms).
Proof.
  induction ms as [|m ms (IH1 & IH2 & IH3)]; simpl.
  - repeat split. constructor.
  - destruct m as [| |try_to_connect]; simpl;
      destruct (ChannelLifecycle.calls None ms) as [w trace]; simpl in *;
      repeat split; auto.
Qed.

Lemma calls_open c ms :
  ((ChannelLifecycle.calls (Some c) ms).1 = Some c
   /\ List.filter ChannelLifecycle.is_destroy (ChannelLifecycle.calls (Some c) ms).2 = [])
  \/ ((ChannelLifecycle.calls (Some c) ms).1 = None
      /\ List.filter ChannelLifecycle.is_destroy (ChannelLifecycle.calls (Some c) ms).2
         = [ChannelLifecycle.grpc_channel_destroy c]).
Proof.
  induction ms as [|m ms IH]; simpl.
  - left. split; reflexivity.
  - destruct m as [| |try_to_connect]; simpl.
    + right. pose proof (calls_closed ms) as (H1 & H2 & _).
      destruct (ChannelLifecycle.calls None ms) as [w trace]. simpl in *.
      split; [exact H1|]. f_equal.
      induction H2 as [|k trace Hk _ IHt]; simpl; [reflexivity|].
      destruct k; simpl in *; try discriminate; exact IHt.
    + destruct (ChannelLifecycle.calls (Some c) ms) as [w trace]. simpl in *.
      exact IH.
    + destruct (ChannelLifecycle.calls (Some c) ms) as [w trace]. simpl in *.
      exact IH.
Qed.

(** X3: over the whole life of a channel object, whatever methods are
    called on it and however often [close] is among them, the wrapped core
    channel is destroyed exactly once: by the first [close], or else by the
    destructor. *)
Theorem channel_destroyed_exactly_once :
  forall (c : nat) (ms : list ChannelLifecycle.Method),
    List.filter ChannelLifecycle.is_destroy (ChannelLifecycle.life c ms)
    = [ChannelLifecycle.grpc_channel_destroy c].
Proof.
  intros c ms. unfold ChannelLifecycle.life.
  destruct (calls_open c ms) as [[Hw Hd]|[Hw Hd]];
    destruct (ChannelLifecycle.calls (Some c) ms) as [w trace]; simpl in *;
    subst w; rewrite List.filter_app, Hd; reflexivity.
Qed.

Lemma calls_app w a :
  forall b,
    ChannelLifecycle.calls w (a ++ b)
    = ((ChannelLifecycle.calls (ChannelLifecycle.calls w a).1 b).1,
       (ChannelLifecycle.calls w a).2
       ++ (ChannelLifecycle.calls (ChannelLifecycle.calls w a).1 b).2).
Proof.
  revert w. induction a as [|m a IH]; intros w b; simpl.
  - destruct (ChannelLifecycle.calls w b); reflexivity.
  - destruct (ChannelLifecycle.call w m) as [w1 t1]. rewrite IH.
    destruct (ChannelLifecycle.calls w1 a) as [w2 t2]. simpl.
    destruct (ChannelLifecycle.calls w2 b) as [w3 t3]. simpl.
    rewrite app_assoc. reflexivity.
Qed.

Lemma calls_Close_closes w before :
  (ChannelLifecycle.calls w (before ++ [ChannelLifecycle.Close])).1 = None.
Proof.
  rewrite calls_app. simpl.
  destruct (ChannelLifecycle.calls w before).1; reflexivity.
Qed.

(** X4: every [getTarget] and [getConnectivityState] called after a [close]
    reaches the core library with a NULL channel: the methods do not check
    that the channel is still open. *)
Theorem use_after_close_passes_null :
  forall (c : nat) (before after : list ChannelLifecycle.Method),
    exists later,
      (ChannelLifecycle.calls (Some c)
         (before ++ ChannelLifecycle.Close :: after)).2
      = (ChannelLifecycle.calls (Some c) (before ++ [ChannelLifecycle.Close])).2
        ++ later
      /\ Forall (fun k => ChannelLifecycle.uses k = Some None) later
      /\ length later
         = length (List.filter (fun m => negb (ChannelLifecycle.is_Close m)) after).
Proof.
  intros c before after.
  exists (ChannelLifecycle.calls None after).2.
  replace (before ++ ChannelLifecycle.Close :: after)
    with ((before ++ [ChannelLifecycle.Close]) ++ after)
    by (rewrite <- app_assoc; reflexivity).
  rewrite (calls_app _ (before ++ [ChannelLifecycle.Close]) after).
  rewrite calls_Close_closes. simpl.
  split; [reflexivity|]. pose proof (calls_closed after) as (_ & H2 & H3).
  split; assumption.
Qed.

(** ** Waiting for a client to be ready *)

Lemma callbacks_app a b :
  Connectivity.callbacks (a ++ b)
  = Connectivity.callbacks a ++ Connectivity.callbacks b.
Proof. unfold Connectivity.callbacks. apply flat_map_app. Qed.






(** ** Credentials from metadata generators *)

(** X6: what the plugin made by [createFromMetadataGenerator] reports.  A
    generator that hands over metadata without error is reported as OK with
    an empty message; one that hands over an error together with metadata is
    reported with the error's message and with the error's own [code] if it
    has one, and with OK if it has none; one that hands over no metadata makes
    the plugin throw a [TypeError] instead of reporting. *)
Theorem createFromMetadataGenerator_reports :
  forall (metadata_generator : string -> Plugin.Generated) (service_url : string),
    (forall metadata,
        metadata_generator service_url = (None, Some metadata) ->
        Plugin.createFromMetadataGenerator metadata_generator service_url
        = Ok (OK, "", Metadata._getCoreRepresentation metadata))
    /\ (forall error metadata,
          metadata_generator service_url = (Some error, Some metadata) ->
          Plugin.createFromMetadataGenerator metadata_generator service_url
          = Ok (default OK (JsError.code error), JsError.message error,
                Metadata._getCoreRepresentation metadata))
    /\ (forall error,
          metadata_generator service_url = (error, None) ->
          Plugin.createFromMetadataGenerator metadata_generator service_url
          = Err (JsError.TypeError
                   "Cannot read property '_getCoreRepresentation' of undefined")).
Proof.
  intros metadata_generator service_url.
  unfold Plugin.createFromMetadataGenerator. repeat split.
  - intros metadata ->. reflexivity.
  - intros error metadata ->. destruct (JsError.code error); reflexivity.
  - intros error ->. destruct error as [error|]; reflexivity.
Qed.

(** A generator that fails with an error that has no [code], but still
    hands over metadata: the plugin reports status OK with the error's
    message. *)
Lemma createFromMetadataGenerator_reports_witness :
  Plugin.createFromMetadataGenerator
    (fun _ => (Some Sample.batch_error, Some Sample.caller_metadata))
    "https://service/"
  = Ok (default OK (JsError.code Sample.batch_error),
        JsError.message Sample.batch_error,
        Metadata._getCoreRepresentation Sample.caller_metadata).
Proof.
  apply (proj1 (proj2 (createFromMetadataGenerator_reports
                         (fun _ => (Some Sample.batch_error,
                                    Some Sample.caller_metadata))
                         "https://service/"))).
  reflexivity.
Defined.

(** X7: the plugin made by [createFromGoogleCredential].  When the Google
    credential hands over a header, the plugin reports OK with exactly one
    metadata entry, [authorization] with the header's [Authorization] value;
    when the credential fails, the plugin throws a [TypeError] and reports
    nothing, not even the failure. *)
Theorem createFromGoogleCredential_reports :
  forall (getRequestMetadata : string -> option JsError.t * Plugin.Header)
         (service_url : string),
    Plugin.createFromGoogleCredential getRequestMetadata service_url
    = match (getRequestMetadata service_url).1 with
      | None =>
          Ok (OK, "",
              [("authorization",
                Metadata.Text
                  (Plugin.Authorization (getRequestMetadata service_url).2))])
      | Some _ =>
          Err (JsError.TypeError
                 "Cannot read property '_getCoreRepresentation' of undefined")
      end.
Proof.
  intros getRequestMetadata service_url.
  unfold Plugin.createFromGoogleCredential, Plugin.createFromMetadataGenerator.
  destruct (getRequestMetadata service_url) as [[err|] header]; simpl.
  - destruct (JsError.code err); reflexivity.
  - reflexivity.
Qed.

(** ** Combining call credentials *)

(** X8: [combineCallCredentials] returns [undefined] without arguments and
    its only argument when there is one; whatever the [compose] method does,
    each further credential is composed onto the result so far; so when
    [compose] joins what its two sides produce, the combined credential
    produces what the arguments produce, each once, in argument order. *)
Theorem combineCallCredentials_in_order :
  forall (Call A : Type) (compose : Call -> Call -> Call) (produce : Call -> list A),
    (forall k1 k2, produce (compose k1 k2) = produce k1 ++ produce k2) ->
    Credentials.combineCallCredentials compose [] = None
    /\ (forall k, Credentials.combineCallCredentials compose [k] = Some k)
    /\ (forall k ks k',
          Credentials.combineCallCredentials compose ((k :: ks) ++ [k'])
          = (fun current => compose current k')
              <$> Credentials.combineCallCredentials compose (k :: ks))
    /\ (forall ks,
          from_option produce [] (Credentials.combineCallCredentials compose ks)
          = flat_map produce ks).
Proof.
  intros Call A compose produce Hjoin. repeat split.
  - intros k ks k'. simpl. rewrite fold_left_app. reflexivity.
  - intros [|k ks]; [reflexivity|]. simpl.
    revert k. induction ks as [|k' ks IH]; intros k; simpl.
    + rewrite app_nil_r. reflexivity.
    + rewrite IH, Hjoin, <- app_assoc. reflexivity.
Qed.

(** Three bearer credentials, with the modelled [composeCall]: the combined
    credential is made of the three, in order. *)
Lemma combineCallCredentials_in_order_witness :
  from_option Observed.leaves []
    (Credentials.combineCallCredentials Credentials.composeCall
       [Sample.k1; Sample.k2; Sample.k1])
  = flat_map Observed.leaves [Sample.k1; Sample.k2; Sample.k1].
Proof.
  apply (proj2 (proj2 (proj2
           (combineCallCredentials_in_order Credentials.CallCredentials
              Credentials.CallCredentials Credentials.composeCall Observed.leaves
              (fun k1 k2 => eq_refl))))).
Defined.

(** ** The interop client's [multiDone] *)

Lemma multiDone_shift (n : nat) :
  forall count,
    InteropClient.multiDone count n
    = List.map (fun i => (count <=? Z.of_nat i)%Z) (seq 1 n).
Proof.
  induction n as [|n IH]; intros count; simpl; [reflexivity|].
  f_equal.
  - apply eq_iff_eq_true. rewrite !Z.leb_le. lia.
  - rewrite IH. rewrite <- (List.seq_shift n 1), List.map_map.
    apply List.map_ext. intros i.
    apply eq_iff_eq_true. rewrite !Z.leb_le. lia.
Qed.

(** X9: the function [multiDone(done, count)] returns calls [done] at its
    [i]-th call exactly when [count <= i]: never before the [count]-th call,
    at the [count]-th call, and again at every later call (and at every call
    when [count] is below 1). *)
Theorem multiDone_calls_done :
  forall (count : Z) (n : nat),
    length (InteropClient.multiDone count n) = n
    /\ forall i, (i < n)%nat ->
         InteropClient.multiDone count n !! i
         = Some (bool_decide (count <= Z.of_nat (S i))%Z).
Proof.
  intros count n. rewrite multiDone_shift. split.
  - rewrite length_map, length_seq. reflexivity.
  - intros i Hi. rewrite list_lookup_fmap, lookup_seq_lt by exact Hi. simpl.
    f_equal. apply eq_iff_eq_true.
    rewrite bool_decide_eq_true, Z.leb_le. reflexivity.
Qed.

(** The five asynchronous ends of the [custom_metadata] test: [done] is
    first called at the fifth call. *)
Lemma multiDone_calls_done_witness :
  InteropClient.multiDone 5 6 = [false; false; false; false; true; true]
  /\ InteropClient.multiDone 5 6 !! 4%nat
     = Some (bool_decide (5 <= Z.of_nat 5)%Z).
Proof.
  split; [reflexivity|].
  apply (proj2 (multiDone_calls_done 5 6) 4%nat). lia.
Defined.

(** ** The handlers of the test service *)

Lemma zeroBuffer_zeros size :
  Forall (fun b => b = x00) (InteropServer.zeroBuffer size).
Proof.
  unfold InteropServer.zeroBuffer.
  induction (N.to_nat size) as [|n IH]; simpl; constructor; auto.
Qed.

Lemma pick_type_not_RANDOM payload_type coin :
  InteropServer.pick_type payload_type coin <> InteropServer.RANDOM
  /\ (InteropServer.pick_type payload_type coin = payload_type
      \/ payload_type = InteropServer.RANDOM).
Proof. destruct payload_type, coin; simpl; split; auto; discriminate. Qed.





(** X10: [unaryCall] answers every request with a payload of exactly
    [response_size] bytes, all zero, whose type is never RANDOM: it is the
    requested type, or COMPRESSABLE or UNCOMPRESSABLE when RANDOM was
    requested. *)
Theorem unaryCall_payload :
  forall (call : InteropServer.Call) (coin : bool),
    exists payload_type body,
      InteropServer.serve (InteropServer.unaryCall call coin)
      = (InteropServer.echoHeader call ++
         [InteropServer.callback
            (InteropServer.WithPayload
               (InteropServer.mkPayload (Some payload_type) body))
            (InteropServer.getEchoTrailer call)],
         Ok tt)
      /\ N.of_nat (length body)
         = InteropServer.response_size (InteropServer.request call)
      /\ Forall (fun b => b = x00) body
      /\ payload_type <> InteropServer.RANDOM
      /\ (payload_type = InteropServer.response_type (InteropServer.request call)
          \/ InteropServer.response_type (InteropServer.request call)
             = InteropServer.RANDOM).
Proof.
  intros call coin.
  exists (InteropServer.pick_type
            (InteropServer.response_type (InteropServer.request call)) coin),
    (InteropServer.zeroBuffer
       (InteropServer.response_size (InteropServer.request call))).
  split; [reflexivity|]. split; [apply zeroBuffer_length|].
  split; [apply zeroBuffer_zeros|]. apply pick_type_not_RANDOM.
Qed.




(** ** The batches the drivers start *)

(** X13: a driver that returns has started batches among which exactly one
    sends the initial metadata, exactly one receives the initial metadata
    (the same, first batch) and exactly one receives the status; the shapes
    with a single request (unary, server-streaming) set the message and the
    close in that first batch and in no other, the other two shapes set
    neither in any batch; the shapes with a single response (unary,
    client-streaming) receive the message in the batch that receives the
    status, and no batch receives a message without the status. *)
Theorem drivers_batch_inventory :
  forall (Arg V : Type) (t : Client.method_type) (method : string)
         (serialize : Arg -> Js (option Buffer)) (deserialize : option Buffer -> Js V)
         (channel : Channel.t) (argument : Arg) (metadata : option Client.loc)
         (options : option CallOptions.t) (h : gmap Client.loc Metadata.t)
         (s : Client.Started V),
    (Client.requester_makers t method serialize deserialize channel argument
       metadata options h).2 = Ok s ->
    let single_request :=
      match t with Client.unary | Client.server_stream => 1 | _ => 0 end in
    let single_response :=
      match t with Client.unary | Client.client_stream => 1 | _ => 0 end in
    let request_in_first :=
      match t with Client.unary | Client.server_stream => true | _ => false end in
    Observed.count_batches Observed.sends_metadata (Client.batches s) = 1
    /\ Observed.count_batches Client.RECV_INITIAL_METADATA (Client.batches s) = 1
    /\ Observed.count_batches Client.RECV_STATUS_ON_CLIENT (Client.batches s) = 1
    /\ Observed.count_batches Observed.sends_message (Client.batches s)
       = single_request
    /\ Observed.count_batches Client.SEND_CLOSE_FROM_CLIENT (Client.batches s)
       = single_request
    /\ Observed.count_batches Client.RECV_MESSAGE (Client.batches s)
       = single_response
    /\ Observed.count_batches
         (fun b => Client.RECV_MESSAGE b && negb (Client.RECV_STATUS_ON_CLIENT b))
         (Client.batches s) = 0
    /\ exists first handler rest,
        Client.batches s = (first, handler) :: rest
        /\ Observed.sends_metadata first = true
        /\ Client.RECV_INITIAL_METADATA first = true
        /\ Observed.sends_message first = request_in_first
        /\ Client.SEND_CLOSE_FROM_CLIENT first = request_in_first
        /\ Observed.count_batches Observed.sends_message rest = 0
        /\ Observed.count_batches Client.SEND_CLOSE_FROM_CLIENT rest = 0.
Proof.
  intros Arg V t method serialize deserialize channel argument metadata options h s.
  destruct t; simpl; unfold_drivers;
    destruct (Client.own_metadata metadata h) as [h' l']; simpl;
    destruct_serialize serialize argument options;
    try discriminate; intros [= <-]; cbv zeta;
    repeat (split; [reflexivity|]); eexists _, _, _; repeat split.
Qed.

(** A unary call: one batch, which holds every operation. *)
Lemma drivers_batch_inventory_witness :
  match (Client.requester_makers Client.unary "/grpc.testing.TestService/UnaryCall"
           Sample.serialize Sample.parse Sample.channel [x01] None None ∅).2 with
  | Ok s =>
      length (Client.batches s) = 1
      /\ Observed.count_batches Observed.sends_metadata (Client.batches s) = 1
  | Err _ => False
  end.
Proof.
  cbn. split; [reflexivity|].
  refine (proj1 (drivers_batch_inventory Buffer nat Client.unary
                   "/grpc.testing.TestService/UnaryCall"
                   Sample.serialize Sample.parse Sample.channel [x01] None None ∅
                   _ eq_refl)).
Defined.

(** X15: a driver that returns has created its call with [getCall] from the
    channel, the method and the caller's options; the unary and
    server-streaming drivers send, in their first batch, the serialized
    argument with [grpcWriteFlags] set to [options.flags] (unset when there
    are no options); a [null] that [serialize] returned is sent as it is,
    which happens without options only.  The other two drivers put no
    message in any batch. *)
Theorem drivers_send_serialized_argument :
  forall (Arg V : Type) (t : Client.method_type) (method : string)
         (serialize : Arg -> Js (option Buffer)) (deserialize : option Buffer -> Js V)
         (channel : Channel.t) (argument : Arg) (metadata : option Client.loc)
         (options : option CallOptions.t) (h : gmap Client.loc Metadata.t)
         (s : Client.Started V),
    (Client.requester_makers t method serialize deserialize channel argument
       metadata options h).2 = Ok s ->
    Client.call s = Client.getCall channel method options
    /\ match t with
       | Client.unary | Client.server_stream =>
           exists serialized first handler rest,
             serialize argument = Ok serialized
             /\ Client.batches s = (first, handler) :: rest
             /\ match serialized with
                | Some message =>
                    Client.SEND_MESSAGE first
                    = Some (Some (Client.mkMessage message
                                    (options ≫= CallOptions.flags)))
                | None =>
                    Client.SEND_MESSAGE first = Some None /\ options = None
                end
       | Client.client_stream | Client.bidi =>
           Forall (fun b => Client.SEND_MESSAGE b.1 = None) (Client.batches s)
       end.
Proof.
  intros Arg V t method serialize deserialize channel argument metadata options h s.
  destruct t; simpl; unfold_drivers;
    destruct (Client.own_metadata metadata h) as [h' l']; simpl;
    destruct_serialize serialize argument options;
    try discriminate; intros [= <-]; simpl; (split; [reflexivity|]);
    first [ eexists _, _, _, _; split; [reflexivity|]; split; [reflexivity|];
            first [ reflexivity | split; reflexivity ]
          | repeat constructor ].
Qed.

(** A server-streaming call with write flags 2 in its options. *)
Lemma drivers_send_serialized_argument_witness :
  match (Client.requester_makers Client.server_stream
           "/grpc.testing.TestService/StreamingOutputCall"
           Sample.serialize Sample.parse Sample.channel [x01] None
           (Some (CallOptions.mk None None None None None (Some 2%Z))) ∅).2 with
  | Ok s =>
      Client.call s
      = Client.getCall Sample.channel
          "/grpc.testing.TestService/StreamingOutputCall"
          (Some (CallOptions.mk None None None None None (Some 2%Z)))
  | Err _ => False
  end.
Proof.
  simpl.
  refine (proj1 (drivers_send_serialized_argument Buffer nat Client.server_stream
                   "/grpc.testing.TestService/StreamingOutputCall"
                   Sample.serialize Sample.parse Sample.channel [x01] None
                   (Some (CallOptions.mk None None None None None (Some 2%Z))) ∅
                   _ eq_refl)).
Defined.

Lemma status_completion_events {V : Type} :
  forall err response,
    let status := Client.response_status response in
    exists errors,
      @Client.status_completion V err (Some response)
      = Ok (Client.emit_status status :: errors)
      /\ (errors = [] <-> Status.code status = OK /\ err = None)
      /\ (Status.code status <> OK ->
          errors
          = [Client.emit_error
               (JsError.mk "Error" (Status.details status)
                  (Some (Status.code status)) (Status.metadata status))])
      /\ (forall batch_err,
            Status.code status = OK -> err = Some batch_err ->
            errors = [Client.emit_error batch_err]).
Proof.
  intros err response status. unfold Client.status_completion. fold status.
  destruct (is_OK (Status.code status)) eqn:Hcode; simpl.
  - apply is_OK_true in Hcode. destruct err as [e|].
    + exists [Client.emit_error e]. split; [reflexivity|]. split; [|split].
      * split; [discriminate | intros [_ [=]]].
      * intros Hne. contradiction.
      * intros batch_err _ [= ->]. reflexivity.
    + exists []. split; [reflexivity|]. split; [|split].
      * split; auto.
      * intros Hne. contradiction.
      * intros batch_err _ [=].
  - apply is_OK_false in Hcode. eexists. split; [reflexivity|]. split; [|split].
    + split; [discriminate | intros [Hok _]; contradiction].
    + intros _. reflexivity.
    + intros batch_err Hok. contradiction.
Qed.

(** X16: the status batch of the server-streaming and bidirectional
    drivers.  When the completion carries no response, the handler throws at
    its first statement, which reads [response.status], whatever the batch
    error: nothing is emitted.  When it carries a response, the handler
    emits ['status'] with the received status first, and then at most one
    ['error']: none exactly when the status is OK and there is no batch
    error; an error built from the status (details, code, trailing metadata)
    when the status is not OK, with or without a batch error; the batch
    error itself when the status is OK.  It never calls a callback. *)
Theorem streaming_status_events :
  forall (Arg V : Type) (t : Client.method_type) (method : string)
         (serialize : Arg -> Js (option Buffer)) (deserialize : option Buffer -> Js V)
         (channel : Channel.t) (argument : Arg) (metadata : option Client.loc)
         (options : option CallOptions.t) (h : gmap Client.loc Metadata.t)
         (s : Client.Started V),
    t = Client.server_stream \/ t = Client.bidi ->
    (Client.requester_makers t method serialize deserialize channel argument
       metadata options h).2 = Ok s ->
    exists start status_batch on_status,
      Client.batches s = [start; (status_batch, on_status)]
      /\ Client.RECV_STATUS_ON_CLIENT status_batch = true
      /\ (forall err,
            on_status err None = Err (Client.undefined_response "status"))
      /\ forall err response,
          let status := Client.response_status response in
          exists errors,
            on_status err (Some response) = Ok (Client.emit_status status :: errors)
            /\ (errors = [] <-> Status.code status = OK /\ err = None)
            /\ (Status.code status <> OK ->
                errors
                = [Client.emit_error
                     (JsError.mk "Error" (Status.details status)
                        (Some (Status.code status)) (Status.metadata status))])
            /\ (forall batch_err,
                  Status.code status = OK -> err = Some batch_err ->
                  errors = [Client.emit_error batch_err]).
Proof.
  intros Arg V t method serialize deserialize channel argument metadata options h s Ht.
  pose proof (@status_completion_events V) as Hhandler.
  destruct Ht as [-> | ->]; simpl; unfold_drivers;
    destruct (Client.own_metadata metadata h) as [h' l']; simpl;
    destruct_serialize serialize argument options;
    try discriminate; intros [= <-]; simpl;
    eexists _, _, _; (split; [reflexivity|]); (split; [reflexivity|]);
    (split; [intros err; reflexivity | exact Hhandler]).
Qed.

(** A bidirectional call: its second batch receives the status; a NOT_FOUND
    status is emitted and then raised as an error, and a completion without
    a response makes the handler throw. *)
Lemma streaming_status_events_witness :
  match (Client.requester_makers Client.bidi
           "/grpc.testing.TestService/FullDuplexCall"
           Sample.serialize Sample.parse Sample.channel [x01] None None ∅).2 with
  | Ok s =>
      exists start status_batch on_status,
        Client.batches s = [start; (status_batch, on_status)]
        /\ Client.RECV_STATUS_ON_CLIENT status_batch = true
        /\ on_status (Some Sample.batch_error) None
           = Err (JsError.TypeError "Cannot read property 'status' of undefined")
        /\ on_status None (Some Sample.response_not_found)
           = Ok [Client.emit_status
                   (Client.response_status Sample.response_not_found);
                 Client.emit_error
                   (JsError.mk "Error" "no such thing" (Some NOT_FOUND)
                      (Some Sample.trailer))]
  | Err _ => False
  end.
Proof.
  simpl.
  destruct (streaming_status_events Buffer nat Client.bidi
              "/grpc.testing.TestService/FullDuplexCall"
              Sample.serialize Sample.parse Sample.channel [x01] None None ∅
              _ (or_intror eq_refl) eq_refl)
    as (start & status_batch & on_status & Hbatches & Hrecv & Hnone & Hevents).
  exists start, status_batch, on_status.
  split; [exact Hbatches|]. split; [exact Hrecv|].
  split; [rewrite Hnone; reflexivity|].
  destruct (Hevents None Sample.response_not_found)
    as (errors & Hon & _ & Herr & _).
  rewrite Hon, Herr; [reflexivity | discriminate].
Defined.

(** ** Channel arguments *)

Lemma acceptable_to_arg v : Observed.acceptable v <-> is_Some (Channel.to_arg v).
Proof.
  destruct v as [n|str|]; simpl.
  - case_bool_decide as Hn; split; intros H.
    + eauto.
    + lia.
    + exfalso. apply Hn. lia.
    + destruct H as [? [=]].
  - split; eauto.
  - split; [contradiction | intros [? [=]]].
Qed.

Lemma map_Forall_acceptable (args_hash : gmap string Channel.JsValue) :
  map_Forall (fun _ v => Observed.acceptable v) args_hash
  <-> map_Forall (fun _ v => is_Some (Channel.to_arg v)) args_hash.
Proof.
  split; intros H k v Hkv; apply acceptable_to_arg; exact (H k v Hkv).
Qed.

(** X17: [new Channel(host, credentials, options)] with an options object
    succeeds exactly when every option value is a string or a number that is
    an int32; it then carries one channel argument per option, under the same
    key, an integer for a number and a string for a string.  Otherwise it
    throws the [TypeError] "Arg values must be strings", also for a number
    such as 2^31 that is no int32. *)
Theorem Channel_New_arguments :
  forall (host : string) (creds : Credentials.ChannelCredentials)
         (args_hash : gmap string Channel.JsValue),
    (map_Forall (fun _ v => Observed.acceptable v) args_hash ->
     exists args,
       Channel.New host creds (Some args_hash)
       = Ok (Channel.mk host creds (Some args))
       /\ dom args = dom args_hash
       /\ (forall k n, args_hash !! k = Some (Channel.JsNumber n) ->
                       args !! k = Some (Channel.GRPC_ARG_INTEGER n))
       /\ (forall k s, args_hash !! k = Some (Channel.JsString s) ->
                       args !! k = Some (Channel.GRPC_ARG_STRING s)))
    /\ (~ map_Forall (fun _ v => Observed.acceptable v) args_hash ->
        Channel.New host creds (Some args_hash)
        = Err (JsError.TypeError "Arg values must be strings")).
Proof.
  intros host creds args_hash. unfold Channel.New. split.
  - intros Hall. pose proof Hall as Hsome. apply map_Forall_acceptable in Hsome.
    rewrite bool_decide_eq_true_2 by exact Hsome.
    eexists. split; [reflexivity|]. split; [|split].
    + apply set_eq. intros k. rewrite !elem_of_dom, lookup_omap.
      split.
      * intros [a Ha]. destruct (args_hash !! k); [eauto | discriminate].
      * intros [v Hv]. rewrite Hv. simpl. exact (Hsome k v Hv).
    + intros k n Hk. rewrite lookup_omap, Hk. simpl.
      pose proof (Hall k _ Hk) as Hn. simpl in Hn.
      rewrite bool_decide_eq_true_2 by lia. reflexivity.
    + intros k str Hk. rewrite lookup_omap, Hk. reflexivity.
  - intros Hnot. rewrite bool_decide_eq_false_2; [reflexivity|].
    intros Hsome. apply Hnot. apply map_Forall_acceptable. exact Hsome.
Qed.

(** Two options of the right types are taken; a receive limit of 2^31 is
    refused. *)
Lemma Channel_New_arguments_witness :
  (exists args,
      Channel.New "localhost:50051" Sample.ssl (Some Inputs.channel_options)
      = Ok (Channel.mk "localhost:50051" Sample.ssl (Some args))
      /\ dom args = dom Inputs.channel_options
      /\ (forall k n, Inputs.channel_options !! k = Some (Channel.JsNumber n) ->
                      args !! k = Some (Channel.GRPC_ARG_INTEGER n))
      /\ (forall k s, Inputs.channel_options !! k = Some (Channel.JsString s) ->
                      args !! k = Some (Channel.GRPC_ARG_STRING s)))
  /\ Channel.New "localhost:50051" Sample.ssl (Some Inputs.bad_options)
     = Err (JsError.TypeError "Arg values must be strings").
Proof.
  split.
  - apply (proj1 (Channel_New_arguments "localhost:50051" Sample.ssl
                    Inputs.channel_options)).
    unfold Inputs.channel_options.
    apply map_Forall_insert_2; [simpl; lia|].
    apply map_Forall_singleton. exact I.
  - apply (proj2 (Channel_New_arguments "localhost:50051" Sample.ssl
                    Inputs.bad_options)).
    unfold Inputs.bad_options. rewrite map_Forall_singleton. simpl. lia.
Defined.

(** X18: the client constructor throws exactly when one of the caller's
    options other than [grpc.primary_user_agent] is neither a string nor an
    int32, and what it throws is the [TypeError] "Arg values must be
    strings"; a caller-supplied [grpc.primary_user_agent] of a wrong type is
    overwritten before the channel sees it and does no harm. *)
Theorem Client_throws_on_bad_option :
  forall (version address : string) (credentials : Credentials.ChannelCredentials)
         (options : option (gmap string Channel.JsValue)) (e : JsError.t),
    Client.Client version address credentials options = Err e
    <-> e = JsError.TypeError "Arg values must be strings"
        /\ exists k v,
            k <> "grpc.primary_user_agent"
            /\ default ∅ options !! k = Some v
            /\ ~ Observed.acceptable v.
Proof.
  intros version address credentials options e.
  unfold Client.Client, Channel.New. case_bool_decide as Hall; split.
  - discriminate.
  - intros (_ & k & v & Hk & Hkv & Hv). exfalso. apply Hv.
    apply acceptable_to_arg. apply (Hall k v).
    rewrite Client_options_other by exact Hk. exact Hkv.
  - intros [= <-]. split; [reflexivity|].
    apply map_not_Forall in Hall; [|apply _].
    destruct Hall as (k & v & Hkv & Hv). exists k, v.
    destruct (decide (k = "grpc.primary_user_agent")) as [->|Hk].
    + rewrite Client_options_user_agent in Hkv. injection Hkv as <-.
      exfalso. apply Hv. simpl. eauto.
    + rewrite Client_options_other in Hkv by exact Hk.
      repeat split; [exact Hk | exact Hkv |].
      intros Hacc. apply Hv. apply acceptable_to_arg. exact Hacc.
  - intros (-> & _). reflexivity.
Qed.

(** ** The methods of a client *)

(** X19: the factory returns a constructor only when no method name starts
    with [$]; the constructor's prototype then has exactly the names of the
    methods object, and the request function under each name is made by the
    maker that the entry's pair [(requestStream, responseStream)] selects
    (neither: unary; response only: server-streaming; request only:
    client-streaming; both: bidirectional), from the entry's [path],
    [requestSerialize] and [responseDeserialize]. *)
Theorem client_method_shapes :
  forall (Arg V : Type) (methods : gmap string (Client.MethodAttrs Arg V))
         (serviceName : string) (prototype : gmap string (Client.Requester Arg V)),
    Client.makeClientConstructor methods serviceName = Ok prototype ->
    (forall name, is_Some (methods !! name) -> Client.startsWith name "$" = false)
    /\ dom prototype = dom methods
    /\ forall name attrs,
        methods !! name = Some attrs ->
        exists requester,
          prototype !! name = Some requester
          /\ Client.maker requester
             = match Client.requestStream attrs, Client.responseStream attrs with
               | false, false => Client.unary
               | false, true => Client.server_stream
               | true, false => Client.client_stream
               | true, true => Client.bidi
               end
          /\ Client.requester_path requester = Client.path attrs
          /\ Client.requester_serialize requester = Client.requestSerialize attrs
          /\ Client.requester_deserialize requester
             = Client.responseDeserialize attrs.
Proof.
  intros Arg V methods serviceName prototype Hmake.
  assert (Hnames : forall name attrs,
             methods !! name = Some attrs -> Client.startsWith name "$" = false).
  { intros name attrs Hlookup.
    destruct (Client.startsWith name "$") eqn:Hname; [|reflexivity].
    unfold Client.makeClientConstructor in Hmake.
    rewrite each_method_reserved in Hmake; [discriminate|].
    apply Exists_exists. exists (name, attrs). split; [|exact Hname].
    apply elem_of_map_to_list. exact Hlookup. }
  rewrite (makeClientConstructor_defines methods serviceName Hnames) in Hmake.
  injection Hmake as <-. split; [|split].
  - intros name [attrs Hlookup]. exact (Hnames name attrs Hlookup).
  - apply dom_fmap_L.
  - intros name attrs Hlookup. exists (Client.make_requester attrs).
    rewrite lookup_fmap, Hlookup. split; [reflexivity|].
    unfold Client.make_requester. simpl.
    destruct (Client.requestStream attrs), (Client.responseStream attrs);
      repeat split.
Qed.

(** A methods object with the single entry [unaryCall], which streams
    neither way: the prototype holds a unary request function under that
    name. *)
Lemma client_method_shapes_witness :
  Client.makeClientConstructor Sample.test_methods "grpc.testing.TestService"
  = Ok (Client.make_requester <$> Sample.test_methods)
  /\ dom (Client.make_requester <$> Sample.test_methods) = dom Sample.test_methods.
Proof.
  assert (Hmake : Client.makeClientConstructor Sample.test_methods
                    "grpc.testing.TestService"
                  = Ok (Client.make_requester <$> Sample.test_methods)).
  { reflexivity. }
  split; [exact Hmake|].
  exact (proj1 (proj2 (client_method_shapes Buffer nat Sample.test_methods
                         "grpc.testing.TestService" _ Hmake))).
Defined.

(** ** More on the streaming drivers and streams *)

(** X20: in the three streaming drivers the first batch, which exchanges
    the initial metadata, completes silently when it fails (the failure
    shows in the status batch) and otherwise emits ['metadata'] once, with
    the received initial metadata; it calls no callback and emits no
    error. *)
Theorem streaming_metadata_event :
  forall (Arg V : Type) (t : Client.method_type) (method : string)
         (serialize : Arg -> Js (option Buffer)) (deserialize : option Buffer -> Js V)
         (channel : Channel.t) (argument : Arg) (metadata : option Client.loc)
         (options : option CallOptions.t) (h : gmap Client.loc Metadata.t)
         (s : Client.Started V),
    t <> Client.unary ->
    (Client.requester_makers t method serialize deserialize channel argument
       metadata options h).2 = Ok s ->
    exists first on_metadata rest,
      Client.batches s = (first, on_metadata) :: rest
      /\ Client.RECV_INITIAL_METADATA first = true
      /\ (forall batch_err response, on_metadata (Some batch_err) response = Ok [])
      /\ (forall response,
            on_metadata None (Some response)
            = Ok [Client.emit_metadata
                    (Metadata._fromCoreRepresentation (Event.metadata response))]).
Proof.
  intros Arg V t method serialize deserialize channel argument metadata options h s.
  destruct t; simpl; intros Ht; try contradiction; unfold_drivers;
    destruct (Client.own_metadata metadata h) as [h' l']; simpl;
    destruct_serialize serialize argument options;
    try discriminate; intros [= <-]; simpl;
    eexists _, _, _; repeat split.
Qed.

(** A client-streaming call: the first batch's handler is silent on a batch
    error. *)
Lemma streaming_metadata_event_witness :
  match (Client.requester_makers Client.client_stream
           "/grpc.testing.TestService/StreamingInputCall"
           Sample.serialize Sample.parse Sample.channel [x01] None None ∅).2 with
  | Ok s =>
      exists first on_metadata rest,
        Client.batches s = (first, on_metadata) :: rest
        /\ Client.RECV_INITIAL_METADATA first = true
        /\ (forall batch_err response,
              on_metadata (Some batch_err) response = Ok [])
        /\ (forall response,
              on_metadata None (Some response)
              = Ok [Client.emit_metadata
                      (Metadata._fromCoreRepresentation (Event.metadata response))])
  | Err _ => False
  end.
Proof.
  simpl.
  refine (streaming_metadata_event Buffer nat Client.client_stream
            "/grpc.testing.TestService/StreamingInputCall"
            Sample.serialize Sample.parse Sample.channel [x01] None None ∅
            _ _ eq_refl).
  discriminate.
Defined.

(** X21: what a completed read batch does to the stream.  A batch error
    pushes nothing and only marks the stream finished.  At the end of the
    stream ([event.read] is [null]) no further read is started, whatever
    [push] returns.  A message that does not deserialize cancels the call
    with INTERNAL and "Failed to parse server response", is still pushed to
    the consumer, as [undefined], and the next read is started if the
    consumer accepts more. *)
Theorem readCallback_outcomes :
  forall (V : Type) (self_deserialize : option Buffer -> Js (option V))
         (self : ReadableStream.State) (data : option Buffer) (push_result : bool),
    (forall batch_err,
        ReadableStream.readCallback self_deserialize self (Some batch_err) data
          push_result
        = (ReadableStream.mk true (ReadableStream.reading self), []))
    /\ ReadableStream.reading
         (ReadableStream.readCallback self_deserialize self None None push_result).1
       = false
    /\ ReadableStream.started
         (ReadableStream.readCallback self_deserialize self None None push_result).2
       = 0
    /\ (forall thrown message,
          self_deserialize (Some message) = Err thrown ->
          ReadableStream.readCallback self_deserialize self None (Some message)
            push_result
          = (if push_result then self
             else ReadableStream.mk (ReadableStream.finished self) false,
             [ReadableStream.cancelWithStatus INTERNAL
                "Failed to parse server response";
              ReadableStream.push ReadableStream.undefined]
             ++ if push_result then [ReadableStream.startBatch] else [])).
Proof.
  intros V d self data push_result. repeat split.
  - unfold ReadableStream.readCallback.
    destruct (d None) as [[v|]|e]; rewrite andb_false_r; reflexivity.
  - unfold ReadableStream.readCallback, ReadableStream.started.
    destruct (d None) as [[v|]|e]; rewrite andb_false_r; reflexivity.
  - intros thrown message Hd. unfold ReadableStream.readCallback. rewrite Hd.
    destruct push_result; reflexivity.
Qed.

(** A two-byte message that the deserializer rejects, with a consumer that
    accepts more. *)
Lemma readCallback_outcomes_witness :
  ReadableStream.readCallback (fun _ => @Err JsError.t (option nat) Sample.batch_error)
    ReadableStream.initial None (Some [x01; x02]) true
  = (ReadableStream.initial,
     [ReadableStream.cancelWithStatus INTERNAL "Failed to parse server response";
      ReadableStream.push ReadableStream.undefined]
     ++ [ReadableStream.startBatch]).
Proof.
  apply (proj2 (proj2 (proj2
           (readCallback_outcomes nat (fun _ => Err Sample.batch_error)
              ReadableStream.initial None true)))
           Sample.batch_error [x01; x02]).
  reflexivity.
Defined.
